(** * urlshort: a fallback-chained URL redirect service

    A shallow embedding of the Go package [urlshort] (the four redirect
    handlers and the map builder) and of its command [main] (the chain
    assembly and the default router), followed by the properties proved
    about them.

    Conventions of the embedding.
    - Go [string] and [[]byte] are both byte sequences; both are [string].
    - A Go [map[string]string] is a [gmap string string]; indexing a missing
      key yields the zero value, the empty string (see [index]).
    - Go's [(value, error)] results are pairs whose second component is an
      [option error], [None] standing for [nil].
    - A [http.ResponseWriter] is the log of the [net/http] calls made on
      it; [net/http], [encoding/json], [yaml.v2] and [bolt] are outside
      the repository and enter through their interfaces only. *)

From Stdlib Require Import Ascii.
From stdpp Require Import base option list strings gmap fin_maps.

Open Scope Z_scope.

(* ===================================================================== *)
(** ** Go values *)
(* ===================================================================== *)

(** The [error] interface: a value carrying its message. *)
Record error := Err { Error : string }.

#[global] Instance error_eq_dec : EqDecision error.
Proof. solve_decision. Defined.

(** [m[k]] on a [map[string]string]: the zero value for a missing key. *)
Definition index (m : gmap string string) (k : string) : string :=
  default "" (m !! k).

(* ===================================================================== *)
(** ** The slice of net/http the program uses *)
(* ===================================================================== *)

Module http.

Definition StatusOK : Z := 200.
Definition StatusFound : Z := 302.
Definition StatusBadRequest : Z := 400.
Definition StatusNotFound : Z := 404.

Record URL := { Path : string }.
Record Request := { Method : string; url : URL }.

(** What a handler did to its [ResponseWriter].  A call is recorded as
    such: what [net/http] then puts on the wire for it (for [Redirect],
    the Location header, resolved against the request path when the
    target is relative, and a short HTML body) is not modelled. *)
Inductive Call :=
| CallRedirect (target : string) (code : Z)
    (* http.Redirect(w, r, target, code) *)
| CallWrite (data : string)
    (* w.Write(data) *)
| CallNotFound
    (* http.NotFound(w, r) *)
| CallMuxRedirect (path : string)
    (* the redirect by which a ServeMux itself answers: to the URL with
       this path and the query of the request; the status code is
       MovedPermanently or TemporaryRedirect, by the Go release *)
| CallBadRequest
    (* w.WriteHeader(StatusBadRequest), by a ServeMux *)
| CallNilFunc.
    (* a nil HandlerFunc was invoked: the goroutine serving the
       request panics *)

#[global] Instance Call_eq_dec : EqDecision Call.
Proof. solve_decision. Defined.

(** The writer is the log of calls, oldest first. *)
Definition ResponseWriter := list Call.

(** The [http.Handler] interface, through its only method. *)
Definition Handler := ResponseWriter -> Request -> ResponseWriter.

(** [http.HandlerFunc], a function value that may be [nil]. *)
Definition HandlerFunc := option Handler.

(** [func (f HandlerFunc) ServeHTTP(w, r) { f(w, r) }] *)
Definition HandlerFunc_ServeHTTP (f : HandlerFunc) : Handler :=
  fun w r =>
    match f with
    | Some g => g w r
    | None => w ++ [CallNilFunc]
    end.

Definition Redirect (w : ResponseWriter) (r : Request)
    (target : string) (code : Z) : ResponseWriter :=
  w ++ [CallRedirect target code].

Definition NotFound (w : ResponseWriter) (r : Request) : ResponseWriter :=
  w ++ [CallNotFound].

(** [http.RedirectHandler(url, code)] as a [ServeMux] uses it. *)
Definition RedirectHandler (path : string) : Handler :=
  fun w r => w ++ [CallMuxRedirect path].

(** The status line the client receives, where the log determines it:
    the code of the first call that writes the header; a plain [Write]
    (and a handler that returns without writing) implies [StatusOK].
    The code of a [ServeMux] redirect depends on the Go release, and a
    panicking handler sends no status. *)
Definition status (w : ResponseWriter) : option Z :=
  match w with
  | CallRedirect _ code :: _ => Some code
  | CallWrite _ :: _ => Some StatusOK
  | CallNotFound :: _ => Some StatusNotFound
  | CallBadRequest :: _ => Some StatusBadRequest
  | CallMuxRedirect _ :: _ => None
  | CallNilFunc :: _ => None
  | [] => Some StatusOK
  end.


(** Does the string end in a slash?  For a pattern: does it name a
    rooted subtree? *)
Definition subtree (pattern : string) : bool :=
  match rev (String.list_ascii_of_string pattern) with
  | c :: _ => bool_decide (c = "/"%char)
  | [] => false
  end.

(** The elements of a path, that is, the strings between its slashes. *)
Fixpoint elements (p : string) : list string :=
  match p with
  | EmptyString => [EmptyString]
  | String c p' =>
      if bool_decide (c = "/"%char) then EmptyString :: elements p'
      else match elements p' with
           | e :: es => String c e :: es
           | [] => [String c EmptyString]
           end
  end.

(** One element met while cleaning a rooted path; [kept] holds the
    elements kept so far, the last one first.  Empty elements and [.]
    are dropped, [..] drops the element before it (and itself at the
    root). *)
Definition cleanStep (kept : list string) (e : string) : list string :=
  if bool_decide (e = "") then kept
  else if bool_decide (e = ".") then kept
  else if bool_decide (e = "..") then tail kept
  else e :: kept.

(** [path.Clean(p)] for a rooted [p]. *)
Definition Clean (p : string) : string :=
  "/" +:+ String.concat "/" (rev (foldl cleanStep [] (elements p))).

(** <<
    func cleanPath(p string) string {
        if p == "" { return "/" }
        if p[0] != '/' { p = "/" + p }
        np := path.Clean(p)
        // path.Clean removes trailing slash except for root;
        // put the trailing slash back if necessary.
        if p[len(p)-1] == '/' && np != "/" { ... np += "/" }
        return np
    }
    >>
    (the fast path elided in the last test returns the same string). *)
Definition cleanPath (p : string) : string :=
  if bool_decide (p = "") then "/"
  else
    let p := if String.prefix "/" p then p else "/" +:+ p in
    let np := Clean p in
    if subtree p && negb (bool_decide (np = "/")) then np +:+ "/" else np.

(** [*http.ServeMux]: the registered patterns, latest first.  The
    patterns are rooted paths (the program registers none with a host)
    and each is registered once. *)
Definition ServeMux := list (string * Handler).

Definition NewServeMux : ServeMux := [].

Definition HandleFunc (mux : ServeMux) (pattern : string)
    (handler : Handler) : ServeMux :=
  (pattern, handler) :: mux.

(** A pattern matches the path it spells; a pattern with a trailing
    slash also matches every path that starts with it. *)
Definition pathMatch (pattern path : string) : bool :=
  bool_decide (pattern = path) || (subtree pattern && String.prefix pattern path).

(** [mux.match(path)]: the longest matching pattern wins. *)
Fixpoint lookupPattern (mux : ServeMux) (path : string)
    : option (string * Handler) :=
  match mux with
  | [] => None
  | (pattern, h) :: mux' =>
      let rest := lookupPattern mux' path in
      if pathMatch pattern path then
        match rest with
        | Some (pattern', h') =>
            if bool_decide (String.length pattern < String.length pattern')%nat
            then rest else Some (pattern, h)
        | None => Some (pattern, h)
        end
      else rest
  end.

(** [mux.handler(host, path)]: the matching handler, or [NotFound]. *)
Definition ServeMux_handler (mux : ServeMux) (path : string) : Handler :=
  match lookupPattern mux path with
  | Some (_, h) => h
  | None => NotFound
  end.

Definition registered (mux : ServeMux) (pattern : string) : bool :=
  bool_decide (pattern ∈ mux.*1).

(** [mux.shouldRedirectRLocked(host, path)]: [path] is not registered
    but [path + "/"] is. *)
Definition shouldRedirect (mux : ServeMux) (path : string) : bool :=
  if registered mux path then false
  else if bool_decide (path = "") then false
  else if registered mux (path +:+ "/") then negb (subtree path)
  else false.

(** [mux.Handler(r)]: a [CONNECT] request is matched with its path as
    it is; any other request is matched with its cleaned path, and when
    the path differs from the cleaned one the mux answers with a
    redirect to the cleaned path instead of calling a registered
    handler. *)
Definition ServeMux_Handler (mux : ServeMux) (r : Request) : Handler :=
  if bool_decide (Method r = "CONNECT") then
    if shouldRedirect mux (Path (url r))
    then RedirectHandler (Path (url r) +:+ "/")
    else ServeMux_handler mux (Path (url r))
  else
    let path := cleanPath (Path (url r)) in
    if shouldRedirect mux path then RedirectHandler (path +:+ "/")
    else if bool_decide (path = Path (url r))
    then ServeMux_handler mux (Path (url r))
    else RedirectHandler path.

(** [mux.ServeHTTP(w, r)].  The request [*] (for a request read off the
    wire, [r.RequestURI == "*"] exactly when [r.URL.Path] is [*]) is a
    bad request. *)
Definition ServeMux_ServeHTTP (mux : ServeMux) : Handler :=
  fun w r =>
    if bool_decide (Path (url r) = "*") then w ++ [CallBadRequest]
    else ServeMux_Handler mux r w r.

End http.

(* ===================================================================== *)
(** ** fmt *)
(* ===================================================================== *)

Module fmt.

Definition newline : string := String (Ascii.ascii_of_nat 10) "".

(** [fmt.Fprintln(w, s)]: one [Write] of the operand and a newline. *)
Definition Fprintln (w : http.ResponseWriter) (s : string)
    : http.ResponseWriter :=
  w ++ [http.CallWrite (s +:+ newline)].

End fmt.

(* ===================================================================== *)
(** ** Package urlshort: the pure part *)
(* ===================================================================== *)

(** <<
    func buildRedirectMap(data []map[string]string) map[string]string {
        redirects := make(map[string]string)
        for _, m := range data {
            redirects[m["path"]] = m["url"]
        }
        return redirects
    }
    >> *)
Definition buildRedirectMap (data : list (gmap string string))
    : gmap string string :=
  foldl (fun redirects m => <[index m "path" := index m "url"]> redirects)
        ∅ data.

(** <<
    func MapHandler(pathsToUrls map[string]string, fallback http.Handler) http.HandlerFunc {
        return func(w http.ResponseWriter, r *http.Request) {
            path, ok := pathsToUrls[r.URL.Path]
            if ok { http.Redirect(w, r, path, http.StatusFound) }
            else  { fallback.ServeHTTP(w, r) }
        }
    }
    >> *)
Definition MapHandler (pathsToUrls : gmap string string)
    (fallback : http.Handler) : http.HandlerFunc :=
  Some (fun w r =>
    match pathsToUrls !! http.Path (http.url r) with
    | Some path => http.Redirect w r path http.StatusFound
    | None => fallback w r
    end).

(* ===================================================================== *)
(** ** Go code that may stop the process *)
(* ===================================================================== *)

Inductive PanicValue :=
| PanicError (e : error)      (* panic(err) *)
| NilDereference.             (* runtime error: invalid memory address or
                                 nil pointer dereference *)

Inductive Outcome (A : Type) :=
| Returns (a : A)             (* the call returns normally *)
| Fatal (e : error)           (* log.Fatal(e): print, then os.Exit(1) *)
| Panics (v : PanicValue).    (* an unrecovered panic unwinds the caller *)

Arguments Returns {A} a.
Arguments Fatal {A} e.
Arguments Panics {A} v.

(** A Go function with access to a state of type [S]. *)
Definition Go (S A : Type) : Type := S -> Outcome A * S.

#[global] Instance Go_ret {S} : MRet (Go S) :=
  fun A a s => (Returns a, s).

#[global] Instance Go_bind {S} : MBind (Go S) :=
  fun A B k m s =>
    match m s with
    | (Returns a, s') => k a s'
    | (Fatal e, s') => (Fatal e, s')
    | (Panics v, s') => (Panics v, s')
    end.

Definition panic {S A} (e : error) : Go S A :=
  fun s => (Panics (PanicError e), s).

Module log.
Definition Fatal {S A} (e : error) : Go S A := fun s => (Fatal e, s).
End log.

(* ===================================================================== *)
(** ** The machine the process runs on *)
(* ===================================================================== *)

(** A Bolt file holds named buckets, a bucket holds key/value pairs. *)
Abbreviation DBFile := (gmap string (gmap string string)) (only parsing).

Record World := {
  (** what [ioutil.ReadFile] yields for each file name when the program
      reads it: the bytes read and the error, if any.  The files read
      this way and the Bolt files are kept apart: the model does not say
      what reading a Bolt file as a mapping file yields *)
  readResult : string -> string * option error;
  (** why [bolt.Open] fails on a file name (unreachable, locked for
      longer than the timeout), if it does *)
  openFailure : string -> option error;
  (** the Bolt files that exist, by name *)
  dbFiles : gmap string DBFile
}.

Definition setDBFile (name : string) (f : DBFile) (wd : World) : World :=
  {| readResult := readResult wd;
     openFailure := openFailure wd;
     dbFiles := <[name := f]> (dbFiles wd) |}.

Module ioutil.
Definition ReadFile (name : string) : Go World (string * option error) :=
  fun wd => (Returns (readResult wd name), wd).
End ioutil.

(* ===================================================================== *)
(** ** The slice of Bolt the program uses *)
(* ===================================================================== *)

Module bolt.

Definition ErrBucketExists : error := Err "bucket already exists".
Definition ErrBucketNameRequired : error := Err "bucket name required".
Definition ErrKeyRequired : error := Err "key required".
Definition ErrKeyTooLarge : error := Err "key too large".
Definition ErrValueTooLarge : error := Err "value too large".

Definition MaxKeySize : Z := 32768.
Definition MaxValueSize : Z := 2147483646.

(** A transaction works on its own copy of the file's contents. *)
Definition Tx := Go DBFile.

(** [*bolt.Bucket]: [nil], or the bucket of that name within the
    transaction that produced the pointer. *)
Abbreviation BucketPtr := (option string) (only parsing).

(** [tx.CreateBucket(name)]: a new empty bucket; an error and a [nil]
    bucket when one of that name exists. *)
Definition CreateBucket (name : string) : Tx (BucketPtr * option error) :=
  fun f =>
    if bool_decide (name = "") then
      (Returns (None, Some ErrBucketNameRequired), f)
    else
      match f !! name with
      | Some _ => (Returns (None, Some ErrBucketExists), f)
      | None => (Returns (Some name, None), <[name := ∅]> f)
      end.

(** [tx.Bucket(name)]: [nil] when there is no such bucket. *)
Definition Bucket (name : string) : Tx BucketPtr :=
  fun f =>
    match f !! name with
    | Some _ => (Returns (Some name), f)
    | None => (Returns None, f)
    end.

(** [b.Put(key, value)]; the method reads through [b]. *)
Definition Put (b : BucketPtr) (key value : string) : Tx (option error) :=
  fun f =>
    match b with
    | None => (Panics NilDereference, f)
    | Some name =>
        if bool_decide (key = "") then (Returns (Some ErrKeyRequired), f)
        else if bool_decide (MaxKeySize < Z.of_nat (String.length key))
        then (Returns (Some ErrKeyTooLarge), f)
        else if bool_decide (MaxValueSize < Z.of_nat (String.length value))
        then (Returns (Some ErrValueTooLarge), f)
        else (Returns None,
              <[name := <[key := value]> (default ∅ (f !! name))]> f)
    end.

(** [b.Cursor()] followed by [c.First()], [c.Next()], ... until the
    key is [nil]: the pairs of the bucket, each once.  The method
    reads through [b]. *)
Definition Cursor (b : BucketPtr) : Tx (list (string * string)) :=
  fun f =>
    match b with
    | None => (Panics NilDereference, f)
    | Some name => (Returns (map_to_list (default ∅ (f !! name))), f)
    end.

(** [*bolt.DB]: the name of the open file. *)
Abbreviation DB := string (only parsing).

(** [bolt.Open(path, 0600, &bolt.Options{Timeout: ...})]: the file is
    created empty when it does not exist. *)
Definition Open (path : string) : Go World (DB * option error) :=
  fun wd =>
    match openFailure wd path with
    | Some e => (Returns (path, Some e), wd)
    | None =>
        match dbFiles wd !! path with
        | Some _ => (Returns (path, None), wd)
        | None => (Returns (path, None), setDBFile path ∅ wd)
        end
    end.

(** [db.Update(fn)]: commit when [fn] returns [nil], roll back when it
    returns an error or panics; a panic keeps unwinding. *)
Definition Update (db : DB) (fn : Tx (option error))
    : Go World (option error) :=
  fun wd =>
    match fn (default ∅ (dbFiles wd !! db)) with
    | (Returns None, f') => (Returns None, setDBFile db f' wd)
    | (Returns (Some e), _) => (Returns (Some e), wd)
    | (Fatal e, _) => (Fatal e, wd)
    | (Panics v, _) => (Panics v, wd)
    end.

(** [db.View(fn)]: a read-only transaction. *)
Definition View {A} (db : DB) (fn : Tx A) : Go World A :=
  fun wd =>
    match fn (default ∅ (dbFiles wd !! db)) with
    | (Returns a, _) => (Returns a, wd)
    | (Fatal e, _) => (Fatal e, wd)
    | (Panics v, _) => (Panics v, wd)
    end.

End bolt.

(* ===================================================================== *)
(** ** The decoders *)
(* ===================================================================== *)

(** [yaml.Unmarshal(in, &out)] and [json.Unmarshal(data, &out)], with
    [out] an empty [[]map[string]string]: the value left in [out] and the
    error.  The decoders belong to other packages; the program is
    verified for any decoder. *)

Module yaml.
Class Decoder := {
  Unmarshal : string -> list (gmap string string) * option error
}.
End yaml.

Module json.
Class Decoder := {
  Unmarshal : string -> list (gmap string string) * option error
}.
End json.

(* ===================================================================== *)
(** ** Package urlshort: the handlers built from external sources *)
(* ===================================================================== *)

(** <<
    func YAMLHandler(yml []byte, fallback http.Handler) (http.HandlerFunc, error) {
        ymlPaths := []map[string]string{}
        err := yaml.Unmarshal(yml, &ymlPaths)
        if err != nil { return nil, err }
        paths := buildRedirectMap(ymlPaths)
        return func(w http.ResponseWriter, r *http.Request) {
            path, ok := paths[r.URL.Path]
            if ok { http.Redirect(w, r, path, http.StatusFound) }
            else  { fallback.ServeHTTP(w, r) }
        }, nil
    }
    >> *)
Definition YAMLHandler `{yaml.Decoder} (yml : string)
    (fallback : http.Handler) : http.HandlerFunc * option error :=
  let '(ymlPaths, err) := yaml.Unmarshal yml in
  match err with
  | Some e => (None, Some e)
  | None =>
      let paths := buildRedirectMap ymlPaths in
      (Some (fun w r =>
         match paths !! http.Path (http.url r) with
         | Some path => http.Redirect w r path http.StatusFound
         | None => fallback w r
         end), None)
  end.

(** [JSONHandler]: the same text with [json.Unmarshal]. *)
Definition JSONHandler `{json.Decoder} (data : string)
    (fallback : http.Handler) : http.HandlerFunc * option error :=
  let '(jsonPaths, err) := json.Unmarshal data in
  match err with
  | Some e => (None, Some e)
  | None =>
      let paths := buildRedirectMap jsonPaths in
      (Some (fun w r =>
         match paths !! http.Path (http.url r) with
         | Some path => http.Redirect w r path http.StatusFound
         | None => fallback w r
         end), None)
  end.

(** [fmt.Errorf(prefix + "%s", e)]; [%s] prints a nil operand as
    [%!s(<nil>)]. *)
Definition Errorf_s (prefix : string) (e : option error) : error :=
  Err (prefix +:+ match e with
                  | Some e => Error e
                  | None => "%!s(<nil>)"
                  end).

(** <<
    func BoltHandler(boltFile string, fallback http.Handler) (http.HandlerFunc, error) {
        db, err := bolt.Open(boltFile, 0600, &bolt.Options{Timeout: 10 * time.Second})
        if err != nil { log.Fatal(err) }
        defer db.Close()

        db.Update(func(tx *bolt.Tx) error {
            b, err2 := tx.CreateBucket([]byte("URLRedirects"))
            if err != nil { return fmt.Errorf("create bucket: %s", err2) }
            err := b.Put([]byte("/urlshort-bolt"), []byte("https://github.com/bcpoole/urlshort"))
            if err != nil { return fmt.Errorf("put: %s", err2) }
            return nil
        })

        paths := make(map[string]string)
        db.View(func(tx *bolt.Tx) error {
            b := tx.Bucket([]byte("URLRedirects"))
            c := b.Cursor()
            for k, v := c.First(); k != nil; k, v = c.Next() {
                paths[string(k)] = string(v)
            }
            return nil
        })

        return func(w http.ResponseWriter, r *http.Request) { ... }, nil
    }
    >>
    In the first closure the test [err != nil] that follows [CreateBucket]
    reads the [err] of the enclosing function (the closure's own [err] is
    declared one statement later), which is [nil] once [Open] succeeded.
    The results of [Update] and [View] are dropped.  The second closure
    returns the [paths] it filled.  [db.Close] releases the file; the
    model keeps no record of open files. *)
Definition BoltHandler (boltFile : string) (fallback : http.Handler)
    : Go World (http.HandlerFunc * option error) :=
  '(db, err) ← bolt.Open boltFile;
  match err with Some e => log.Fatal e | None => mret tt end;;
  bolt.Update db (
    '(b, err2) ← bolt.CreateBucket "URLRedirects";
    match err with
    | Some _ => mret (Some (Errorf_s "create bucket: " err2))
    | None =>
        err ← bolt.Put b "/urlshort-bolt" "https://github.com/bcpoole/urlshort";
        match err with
        | Some _ => mret (Some (Errorf_s "put: " err2))
        | None => mret None
        end
    end);;
  paths ← bolt.View db (
    b ← bolt.Bucket "URLRedirects";
    c ← bolt.Cursor b;
    mret (foldl (fun (paths : gmap string string) kv => <[kv.1 := kv.2]> paths)
                ∅ c));
  mret (Some (fun w r =>
          match paths !! http.Path (http.url r) with
          | Some path => http.Redirect w r path http.StatusFound
          | None => fallback w r
          end), None).

(* ===================================================================== *)
(** ** Command main *)
(* ===================================================================== *)

(** <<
    func hello(w http.ResponseWriter, r *http.Request) {
        fmt.Fprintln(w, "Hello, world!")
    }
    >> *)
Definition hello : http.Handler :=
  fun w r => fmt.Fprintln w "Hello, world!".

(** <<
    func defaultMux() *http.ServeMux {
        mux := http.NewServeMux()
        mux.HandleFunc("/", hello)
        return mux
    }
    >> *)
Definition defaultMux : http.ServeMux :=
  let mux := http.NewServeMux in
  let mux := http.HandleFunc mux "/" hello in
  mux.

(** The flag values after [flag.Parse()]. *)
Record Flags := {
  yamlFile : string;
  jsonFile : string;
  boltFile : string
}.

Definition defaultFlags : Flags :=
  {| yamlFile := "urlmappings.yaml";
     jsonFile := "urlmappings.json";
     boltFile := "bolt.db" |}.

(** The call [http.ListenAndServe(addr, handler)] that ends [main]. *)
Record Server := { Addr : string; Serving : http.Handler }.

Definition pathsToUrls : gmap string string :=
  <["/urlshort-godoc" := "https://godoc.org/github.com/gophercises/urlshort"]>
  (<["/yaml-godoc" := "https://godoc.org/gopkg.in/yaml.v2"]> ∅).

(** <<
    func main() {
        mux := defaultMux()
        pathsToUrls := map[string]string{ ... }
        mapHandler := urlshort.MapHandler(pathsToUrls, mux)
        ... flag.Parse()
        boltHandler, err := urlshort.BoltHandler( *boltFile, mapHandler)
        if err != nil { panic(err) }
        yaml, err := ioutil.ReadFile( *yamlFile)
        if err != nil { panic(err) }
        yamlHandler, err := urlshort.YAMLHandler(yaml, boltHandler)
        if err != nil { panic(err) }
        jsonData, err := ioutil.ReadFile( *jsonFile)
        jsonHandler, err := urlshort.JSONHandler(jsonData, yamlHandler)
        if err != nil { panic(err) }
        fmt.Println("Starting the server on :8080")
        http.ListenAndServe(":8080", jsonHandler)
    }
    >>
    The model returns the arguments of [ListenAndServe]; what is printed
    on standard output is left out. *)
Definition main `{yaml.Decoder} `{json.Decoder} (flags : Flags)
    : Go World Server :=
  let mux := defaultMux in
  let mapHandler := MapHandler pathsToUrls (http.ServeMux_ServeHTTP mux) in
  '(boltHandler, err) ←
      BoltHandler (boltFile flags) (http.HandlerFunc_ServeHTTP mapHandler);
  match err with Some e => panic e | None => mret tt end;;
  '(yaml, err) ← ioutil.ReadFile (yamlFile flags);
  match err with Some e => panic e | None => mret tt end;;
  let '(yamlHandler, err) :=
      YAMLHandler yaml (http.HandlerFunc_ServeHTTP boltHandler) in
  match err with Some e => panic e | None => mret tt end;;
  '(jsonData, err) ← ioutil.ReadFile (jsonFile flags);
  let '(jsonHandler, err) :=
      JSONHandler jsonData (http.HandlerFunc_ServeHTTP yamlHandler) in
  match err with Some e => panic e | None => mret tt end;;
  mret {| Addr := ":8080";
          Serving := http.HandlerFunc_ServeHTTP jsonHandler |}.

(* ===================================================================== *)
(** ** Command main, before the Bolt handler was added *)
(* ===================================================================== *)

Module V1.

(** The flag values after [flag.Parse()]; both default to the empty
    name. *)
Record Flags := {
  yamlFile : string;
  jsonFile : string
}.

Definition defaultFlags : Flags :=
  {| yamlFile := ""; jsonFile := "" |}.

(** <<
    func main() {
        mux := defaultMux()
        pathsToUrls := map[string]string{ ... }
        mapHandler := urlshort.MapHandler(pathsToUrls, mux)
        ... flag.Parse()
        yaml, err := ioutil.ReadFile( *yamlFile)
        if err != nil { panic(err) }
        yamlHandler, err := urlshort.YAMLHandler(yaml, mapHandler)
        if err != nil { panic(err) }
        jsonData, err := ioutil.ReadFile( *jsonFile)
        jsonHandler, err := urlshort.JSONHandler(jsonData, yamlHandler)
        if err != nil { panic(err) }
        fmt.Println("Starting the server on :8080")
        http.ListenAndServe(":8080", jsonHandler)
    }
    >>
    [defaultMux], [hello] and the literal [pathsToUrls] are the same text
    as in the later command. *)
Definition main `{yaml.Decoder} `{json.Decoder} (flags : Flags)
    : Go World Server :=
  let mux := defaultMux in
  let mapHandler := MapHandler pathsToUrls (http.ServeMux_ServeHTTP mux) in
  '(yaml, err) ← ioutil.ReadFile (yamlFile flags);
  match err with Some e => panic e | None => mret tt end;;
  let '(yamlHandler, err) :=
      YAMLHandler yaml (http.HandlerFunc_ServeHTTP mapHandler) in
  match err with Some e => panic e | None => mret tt end;;
  '(jsonData, err) ← ioutil.ReadFile (jsonFile flags);
  let '(jsonHandler, err) :=
      JSONHandler jsonData (http.HandlerFunc_ServeHTTP yamlHandler) in
  match err with Some e => panic e | None => mret tt end;;
  mret {| Addr := ":8080";
          Serving := http.HandlerFunc_ServeHTTP jsonHandler |}.

End V1.

(* ===================================================================== *)
(** ** Vocabulary of the statements *)
(* ===================================================================== *)

(** [r.URL.Path] *)
Definition requestPath (r : http.Request) : string := http.Path (http.url r).

(** The closure text that the four constructors share, over the mapping
    and the fallback it captures. *)
Definition lookupHandler (mapping : gmap string string)
    (fallback : http.Handler) : http.Handler :=
  fun w r =>
    match mapping !! requestPath r with
    | Some target => http.Redirect w r target http.StatusFound
    | None => fallback w r
    end.

(** The contract of a lookup handler [h] over [mapping]: a 302 redirect
    to the mapped URL for a path that is a key, the fallback's result
    otherwise. *)
Definition LookupContract (mapping : gmap string string)
    (fallback h : http.Handler) : Prop :=
  forall w r,
    match mapping !! requestPath r with
    | Some target => h w r = w ++ [http.CallRedirect target 302]
    | None => h w r = fallback w r
    end.

(** The path and the URL that [buildRedirectMap] reads off a record. *)
Definition recordPath (m : gmap string string) : string := index m "path".
Definition recordURL (m : gmap string string) : string := index m "url".

(** A record that carries both fields. *)
Definition wellFormed (m : gmap string string) : Prop :=
  is_Some (m !! "path") /\ is_Some (m !! "url").

(** One step of the loop of [buildRedirectMap]. *)
Definition addRecord (redirects m : gmap string string) : gmap string string :=
  <[recordPath m := recordURL m]> redirects.

(** [mapping] is what a source holding [records] is rebuilt into: one
    entry per distinct path, the last record of a path giving its URL;
    and when the paths are pairwise distinct, as many entries as records,
    each record's path mapped to that record's URL. *)
Definition rebuilt (mapping : gmap string string)
    (records : list (gmap string string)) : Prop :=
  size mapping = length (remove_dups (recordPath <$> records)) /\
  (forall p, mapping !! p
             = recordURL <$> last (filter (fun m => recordPath m = p) records)) /\
  (NoDup (recordPath <$> records) ->
   size mapping = length records /\
   forall m, m ∈ records ->
     exists p u, m !! "path" = Some p /\ m !! "url" = Some u /\
                 mapping !! p = Some u).

(** The mapping each file-backed constructor builds from its input. *)
Definition yamlMapping `{yaml.Decoder} (yml : string) : gmap string string :=
  buildRedirectMap (yaml.Unmarshal yml).1.
Definition jsonMapping `{json.Decoder} (data : string) : gmap string string :=
  buildRedirectMap (json.Unmarshal data).1.

(** The bucket of redirects inside a Bolt file, if there is one, and its
    contents. *)
Definition bucketOf (file : string) (wd : World)
    : option (gmap string string) :=
  default ∅ (dbFiles wd !! file) !! "URLRedirects".
Definition snapshot (file : string) (wd : World) : gmap string string :=
  default ∅ (bucketOf file wd).

(** The entry written into a new bucket. *)
Definition seed : gmap string string :=
  <["/urlshort-bolt" := "https://github.com/bcpoole/urlshort"]> ∅.

(** The Bolt file after the bucket was created and seeded. *)
Definition seeded (file : string) (wd : World) : World :=
  setDBFile file (<["URLRedirects" := seed]> (default ∅ (dbFiles wd !! file))) wd.

(** The process stopped before [main] reached [ListenAndServe]. *)
Definition aborted {A} (o : Outcome A) : Prop :=
  match o with
  | Returns _ => False
  | Fatal _ | Panics _ => True
  end.

(** The handler [main] hands to the server when every source loads:
    JSON in front, then YAML, then Bolt, then the static map, then the
    default router. *)
Definition chain (jsonPaths yamlPaths boltPaths : gmap string string)
    : http.Handler :=
  lookupHandler jsonPaths
    (lookupHandler yamlPaths
       (lookupHandler boltPaths
          (lookupHandler pathsToUrls (http.ServeMux_ServeHTTP defaultMux)))).

(* ===================================================================== *)
(** ** Example inputs *)
(* ===================================================================== *)

Module Sample.

Definition record (path url : string) : gmap string string :=
  <["path" := path]> (<["url" := url]> ∅).

(** A YAML document of two records; the first path is also a key of
    the static map. *)
Definition yamlDoc : string :=
  "- path: /urlshort-godoc" +:+ fmt.newline +:+
  "  url: https://example.com/from-yaml" +:+ fmt.newline +:+
  "- path: /b" +:+ fmt.newline +:+
  "  url: https://b.example" +:+ fmt.newline.

Definition yamlRecords : list (gmap string string) :=
  [record "/urlshort-godoc" "https://example.com/from-yaml";
   record "/b" "https://b.example"].

(** A JSON document of one record. *)
Definition dq : string := String (ascii_of_nat 34) "".
Definition jsonDoc : string :=
  "[{" +:+ dq +:+ "path" +:+ dq +:+ ":" +:+ dq +:+ "/j" +:+ dq +:+ "," +:+
  dq +:+ "url" +:+ dq +:+ ":" +:+ dq +:+ "https://j.example" +:+ dq +:+ "}]".

Definition jsonRecords : list (gmap string string) :=
  [record "/j" "https://j.example"].

(** Decoders for the examples: they read the documents above (and the
    empty YAML document, the empty JSON array) as [yaml.v2] and
    [encoding/json] do, and reject every other input, among them the
    empty JSON input and the unfinished document [{]. *)
Definition yamlDecoder : yaml.Decoder :=
  {| yaml.Unmarshal yml :=
       if bool_decide (yml = yamlDoc) then (yamlRecords, None)
       else if bool_decide (yml = "") then ([], None)
       else ([], Some (Err "yaml: did not find expected node content")) |}.

Definition jsonDecoder : json.Decoder :=
  {| json.Unmarshal data :=
       if bool_decide (data = jsonDoc) then (jsonRecords, None)
       else if bool_decide (data = "[]") then ([], None)
       else ([], Some (Err "unexpected end of JSON input")) |}.

(** A machine described by what its two mapping files read as, whether
    the Bolt file can be opened, and the Bolt files it holds. *)
Definition world (yamlRead jsonRead : string * option error)
    (lock : option error) (dbs : gmap string (gmap string (gmap string string)))
    : World :=
  {| readResult name :=
       if bool_decide (name = "urlmappings.yaml") then yamlRead
       else if bool_decide (name = "urlmappings.json") then jsonRead
       else ("", Some (Err "open: no such file or directory"));
     openFailure _ := lock;
     dbFiles := dbs |}.

(** Both files readable, no Bolt file yet. *)
Definition fresh : World := world (yamlDoc, None) (jsonDoc, None) None ∅.

Definition GET (path : string) : http.Request :=
  {| http.Method := "GET"; http.url := {| http.Path := path |} |}.

(** Records with a missing field, and a source with a repeated path. *)
Definition noPath : gmap string string := <["url" := "https://x.example"]> ∅.
Definition noURL : gmap string string := <["path" := "/x"]> ∅.
Definition repeated : list (gmap string string) :=
  [record "/a" "https://first.example"; record "/b" "https://b.example";
   record "/a" "https://last.example"].

(** The YAML file holds an unfinished document. *)
Definition brokenYaml : World := world ("{", None) (jsonDoc, None) None ∅.

(** The JSON file cannot be opened: nothing is read. *)
Definition noJson : World :=
  world (yamlDoc, None)
        ("", Some (Err "open urlmappings.json: no such file or directory"))
        None ∅.

(** Another process holds the lock of the Bolt file. *)
Definition locked : World :=
  world (yamlDoc, None) (jsonDoc, None) (Some (Err "timeout")) ∅.

(** [main] with the example decoders. *)
Definition main : Flags -> Go World Server :=
  @main yamlDecoder jsonDecoder.

(** The server that [main] starts on the machine [fresh]. *)
Definition server : Server :=
  {| Addr := ":8080";
     Serving := chain (buildRedirectMap jsonRecords)
                      (buildRedirectMap yamlRecords) seed |}.

End Sample.

(* ===================================================================== *)
(** ** Vocabulary of the further properties *)
(* ===================================================================== *)

(** The earlier command is run with the two file flags of the later
    one. *)
Definition withoutBolt (flags : Flags) : V1.Flags :=
  {| V1.yamlFile := yamlFile flags; V1.jsonFile := jsonFile flags |}.

(** The handler the earlier [main] hands to the server: JSON in front,
    then YAML, then the static map, then the default router. *)
Definition chainV1 (jsonPaths yamlPaths : gmap string string) : http.Handler :=
  lookupHandler jsonPaths
    (lookupHandler yamlPaths
       (lookupHandler pathsToUrls (http.ServeMux_ServeHTTP defaultMux))).

(** The one call a handler of this program makes on the writer: a 302
    redirect or the greeting line. *)
Definition redirectOrGreeting (c : http.Call) : Prop :=
  (exists target, c = http.CallRedirect target 302) \/
  c = http.CallWrite ("Hello, world!" +:+ fmt.newline).

(** Further example inputs. *)
Module More.

(** Two records that differ only in a field the builder does not read. *)
Definition tagged (tag : string) : gmap string string :=
  <["note" := tag]> (Sample.record "/a" "https://a.example").

(** A Bolt file that already holds the bucket, with an entry of its
    own. *)
Definition stocked : World :=
  Sample.world (Sample.yamlDoc, None) (Sample.jsonDoc, None) None
    (<["bolt.db" := <["URLRedirects" := <["/mine" := "https://mine.example"]> ∅]> ∅]> ∅).

(** The YAML file cannot be read. *)
Definition noYaml : World :=
  Sample.world ("", Some (Err "open urlmappings.yaml: no such file or directory"))
               (Sample.jsonDoc, None) None ∅.

(** The flags of the earlier command that name the example files. *)
Definition flagsV1 : V1.Flags := withoutBolt defaultFlags.

(** The earlier [main] with the example decoders. *)
Definition mainV1 : V1.Flags -> Go World Server :=
  @V1.main Sample.yamlDecoder Sample.jsonDecoder.

(** The server that the earlier [main] starts on [Sample.fresh]. *)
Definition serverV1 : Server :=
  {| Addr := ":8080";
     Serving := chainV1 (buildRedirectMap Sample.jsonRecords)
                        (buildRedirectMap Sample.yamlRecords) |}.

End More.

(* ===================================================================== *)
(** ** Lemmas on the map builder *)
(* ===================================================================== *)

Lemma buildRedirectMap_snoc data m :
  buildRedirectMap (data ++ [m]) =
  <[recordPath m := recordURL m]> (buildRedirectMap data).
Proof. unfold buildRedirectMap. by rewrite foldl_app. Qed.

Lemma buildRedirectMap_app before after :
  buildRedirectMap (before ++ after) =
  foldl (fun (redirects : gmap string string) m =>
           <[recordPath m := recordURL m]> redirects)
        (buildRedirectMap before) after.
Proof. unfold buildRedirectMap. by rewrite foldl_app. Qed.

(** A key, once written, stays: the loop never deletes. *)
Lemma foldl_insert_keeps (after : list (gmap string string))
    (acc : gmap string string) (p : string) :
  is_Some (acc !! p) ->
  is_Some (foldl (fun (redirects : gmap string string) m =>
                    <[recordPath m := recordURL m]> redirects)
                 acc after !! p).
Proof.
  revert acc. induction after as [|m after IH]; intros acc Hp; [done|].
  simpl. apply IH. destruct (decide (recordPath m = p)) as [->|Hne].
  - rewrite lookup_insert_eq. by eexists.
  - by rewrite lookup_insert_ne.
Qed.

Lemma buildRedirectMap_lookup data p :
  buildRedirectMap data !! p =
  recordURL <$> last (filter (fun m => recordPath m = p) data).
Proof.
  induction data as [|m data IH] using rev_ind; [done|].
  rewrite buildRedirectMap_snoc, filter_app.
  destruct (decide (recordPath m = p)) as [Hp|Hp].
  - rewrite (filter_cons_True _ m []) by done.
    rewrite filter_nil, last_snoc. simpl. rewrite <- Hp. apply lookup_insert_eq.
  - rewrite (filter_cons_False _ m []) by done.
    rewrite filter_nil, app_nil_r, lookup_insert_ne by done. exact IH.
Qed.

Lemma buildRedirectMap_dom data :
  dom (buildRedirectMap data) = list_to_set (recordPath <$> data).
Proof.
  induction data as [|m data IH] using rev_ind.
  - unfold buildRedirectMap. simpl. by rewrite dom_empty_L.
  - rewrite buildRedirectMap_snoc, dom_insert_L, IH, fmap_app, list_to_set_app_L.
    simpl. rewrite (right_id_L ∅ (∪)). apply (comm_L (∪)).
Qed.

Lemma size_list_to_set_remove_dups (l : list string) :
  size (list_to_set (C:=gset string) l) = length (remove_dups l).
Proof.
  rewrite <- (size_list_to_set (C:=gset string) (remove_dups l))
    by apply NoDup_remove_dups.
  f_equal. apply set_eq. intros x.
  by rewrite !elem_of_list_to_set, elem_of_remove_dups.
Qed.

Lemma buildRedirectMap_size data :
  size (buildRedirectMap data) = length (remove_dups (recordPath <$> data)).
Proof.
  by rewrite <- size_dom, buildRedirectMap_dom, size_list_to_set_remove_dups.
Qed.

Lemma remove_dups_NoDup (l : list string) : NoDup l -> remove_dups l = l.
Proof.
  induction 1 as [|x l Hx Hl IH]; [done|]. simpl.
  destruct (decide_rel elem_of x l); [done|]. by rewrite IH.
Qed.

(** No later record has the path [p]. *)
Lemma filter_path_none (after : list (gmap string string)) (p : string) :
  (forall m, m ∈ after -> recordPath m <> p) ->
  filter (fun m => recordPath m = p) after = [].
Proof.
  induction after as [|m after IH]; intros Hnone; [done|].
  rewrite filter_cons_False by (apply Hnone; apply list_elem_of_here).
  apply IH. intros m' Hm'. apply Hnone. by apply list_elem_of_further.
Qed.

(** With pairwise-distinct paths every record keeps its own entry. *)
Lemma buildRedirectMap_NoDup data m :
  NoDup (recordPath <$> data) -> m ∈ data ->
  buildRedirectMap data !! recordPath m = Some (recordURL m).
Proof.
  induction data as [|m' data IH] using rev_ind; intros Hnd Hm.
  - by apply elem_of_nil in Hm.
  - rewrite fmap_app in Hnd. apply NoDup_app in Hnd as (Hnd & Hfresh & _).
    rewrite buildRedirectMap_snoc.
    apply elem_of_app in Hm as [Hm|Hm].
    + rewrite lookup_insert_ne; [by apply IH|].
      intros Heq. apply (Hfresh (recordPath m)).
      * apply list_elem_of_fmap. by exists m.
      * rewrite <- Heq. simpl. apply list_elem_of_here.
    + apply list_elem_of_singleton in Hm as ->. apply lookup_insert_eq.
Qed.

Lemma buildRedirectMap_rebuilt records :
  Forall wellFormed records -> rebuilt (buildRedirectMap records) records.
Proof.
  intros Hwf. split; [apply buildRedirectMap_size|].
  split; [intros p; apply buildRedirectMap_lookup|].
  intros Hnd. split.
  - by rewrite buildRedirectMap_size, remove_dups_NoDup, length_fmap.
  - intros m Hm.
    destruct (proj1 (Forall_forall _ _) Hwf m Hm) as [[p Hp] [u Hu]].
    exists p, u. split; [done|]. split; [done|].
    assert (recordPath m = p) as <-
      by (unfold recordPath, index; by rewrite Hp).
    assert (recordURL m = u) as <-
      by (unfold recordURL, index; by rewrite Hu).
    by apply buildRedirectMap_NoDup.
Qed.

(* ===================================================================== *)
(** ** Lemmas on the Bolt handler *)
(* ===================================================================== *)

Lemma foldl_insert_pairs (l : list (string * string)) (acc : gmap string string) :
  NoDup l.*1 ->
  foldl (fun (paths : gmap string string) kv => <[kv.1 := kv.2]> paths) acc l
  = list_to_map l ∪ acc.
Proof.
  revert acc. induction l as [|[k v] l IH]; intros acc Hnd; simpl.
  - by rewrite (left_id_L ∅ (∪)).
  - apply NoDup_cons in Hnd as [Hk Hnd]. rewrite IH by done.
    rewrite <- insert_union_l. rewrite insert_union_r; [done|].
    by apply not_elem_of_list_to_map_1.
Qed.

(** The cursor loop copies the bucket. *)
Lemma cursor_loop_reads_bucket (b : gmap string string) :
  foldl (fun (paths : gmap string string) kv => <[kv.1 := kv.2]> paths)
        ∅ (map_to_list b) = b.
Proof.
  rewrite foldl_insert_pairs by apply NoDup_fst_map_to_list.
  by rewrite (right_id_L ∅ (∪)), list_to_map_to_list.
Qed.

#[local] Arguments lookup : simpl never.
#[local] Arguments insert : simpl never.
#[local] Arguments map_to_list : simpl never.

(** [bolt.Open] fails: the process exits. *)
Lemma BoltHandler_open_fails file fb wd e :
  openFailure wd file = Some e -> BoltHandler file fb wd = (Fatal e, wd).
Proof.
  intros He. unfold BoltHandler, mbind, Go_bind, bolt.Open. by rewrite He.
Qed.

(** The bucket is there already: [CreateBucket] yields a nil bucket and
    [Put] dereferences it. *)
Lemma BoltHandler_bucket_exists file fb wd b :
  openFailure wd file = None -> bucketOf file wd = Some b ->
  BoltHandler file fb wd = (Panics NilDereference, wd).
Proof.
  unfold bucketOf. intros Ho Hb.
  destruct (dbFiles wd !! file) as [f|] eqn:Hf; [|done]. simpl in Hb.
  unfold BoltHandler, mbind, Go_bind, bolt.Open, bolt.Update, bolt.CreateBucket.
  repeat (progress (simpl; rewrite ?Ho, ?Hf, ?Hb)). done.
Qed.

(** No bucket yet: it is created, seeded and read back. *)
Lemma BoltHandler_seeds file fb wd :
  openFailure wd file = None -> bucketOf file wd = None ->
  BoltHandler file fb wd =
  (Returns (Some (lookupHandler seed fb), None), seeded file wd).
Proof.
  unfold bucketOf, seeded, lookupHandler, requestPath. intros Ho Hb.
  unfold BoltHandler, mbind, Go_bind, bolt.Open, bolt.Update, bolt.CreateBucket,
    bolt.View, bolt.Bucket, bolt.Cursor, setDBFile.
  rewrite Ho.
  destruct (dbFiles wd !! file) as [f|] eqn:Hf; simpl in Hb;
    repeat (progress (simpl;
      rewrite ?Hf, ?Hb, ?lookup_insert_eq, ?lookup_empty, ?insert_insert_eq));
    by rewrite cursor_loop_reads_bucket.
Qed.

Lemma bucketOf_seeded file wd : bucketOf file (seeded file wd) = Some seed.
Proof.
  unfold bucketOf, seeded, setDBFile. simpl.
  rewrite lookup_insert_eq. simpl. apply lookup_insert_eq.
Qed.

(** The three ways a call of [BoltHandler] can end. *)
Lemma BoltHandler_cases file fb wd :
  (exists e, openFailure wd file = Some e /\
             BoltHandler file fb wd = (Fatal e, wd)) \/
  (exists b, openFailure wd file = None /\ bucketOf file wd = Some b /\
             BoltHandler file fb wd = (Panics NilDereference, wd)) \/
  (openFailure wd file = None /\ bucketOf file wd = None /\
   BoltHandler file fb wd =
   (Returns (Some (lookupHandler seed fb), None), seeded file wd)).
Proof.
  destruct (openFailure wd file) as [e|] eqn:Ho.
  - left. exists e. split; [done|]. by apply BoltHandler_open_fails.
  - right. destruct (bucketOf file wd) as [b|] eqn:Hb.
    + left. exists b. repeat split; try done.
      by eapply BoltHandler_bucket_exists.
    + right. repeat split; try done. by apply BoltHandler_seeds.
Qed.

(* ===================================================================== *)
(** ** Lemmas on main *)
(* ===================================================================== *)

Section Main.
Context `{yaml.Decoder} `{json.Decoder}.

Lemma main_open_fails flags wd e :
  openFailure wd (boltFile flags) = Some e ->
  main flags wd = (Fatal e, wd).
Proof.
  intros Ho. unfold main, mbind, Go_bind.
  by rewrite (BoltHandler_open_fails _ _ _ _ Ho).
Qed.

Lemma main_bucket_exists flags wd b :
  openFailure wd (boltFile flags) = None ->
  bucketOf (boltFile flags) wd = Some b ->
  main flags wd = (Panics NilDereference, wd).
Proof.
  intros Ho Hb. unfold main, mbind, Go_bind.
  by rewrite (BoltHandler_bucket_exists _ _ _ _ Ho Hb).
Qed.

(** Once the Bolt handler is built, [main] is decided by the two
    files: the YAML read error, the YAML decoding error and the JSON
    decoding error each panic; the JSON read error is not looked at. *)
Lemma main_after_seeding flags wd :
  openFailure wd (boltFile flags) = None ->
  bucketOf (boltFile flags) wd = None ->
  main flags wd =
  (match readResult wd (yamlFile flags) with
   | (_, Some e) => Panics (PanicError e)
   | (yml, None) =>
       match yaml.Unmarshal yml with
       | (_, Some e) => Panics (PanicError e)
       | (ymlPaths, None) =>
           match json.Unmarshal (readResult wd (jsonFile flags)).1 with
           | (_, Some e) => Panics (PanicError e)
           | (jsonPaths, None) =>
               Returns {| Addr := ":8080";
                          Serving := chain (buildRedirectMap jsonPaths)
                                           (buildRedirectMap ymlPaths) seed |}
           end
       end
   end, seeded (boltFile flags) wd).
Proof.
  intros Ho Hb. unfold main, mbind, Go_bind.
  rewrite (BoltHandler_seeds _ _ _ Ho Hb). simpl.
  unfold ioutil.ReadFile, YAMLHandler, JSONHandler. simpl.
  destruct (readResult wd (yamlFile flags)) as [yml [e|]]; [done|]. simpl.
  destruct (yaml.Unmarshal yml) as [ymlPaths [e|]]; [done|]. simpl.
  destruct (readResult wd (jsonFile flags)) as [jsonData jsonErr]. simpl.
  destruct (json.Unmarshal jsonData) as [jsonPaths [e|]]; done.
Qed.

(** What is known when [main] reaches [ListenAndServe]. *)
Lemma main_returns_inv flags wd srv wd' :
  main flags wd = (Returns srv, wd') ->
  openFailure wd (boltFile flags) = None /\
  bucketOf (boltFile flags) wd = None /\
  (readResult wd (yamlFile flags)).2 = None /\
  (yaml.Unmarshal (readResult wd (yamlFile flags)).1).2 = None /\
  (json.Unmarshal (readResult wd (jsonFile flags)).1).2 = None /\
  wd' = seeded (boltFile flags) wd /\
  snapshot (boltFile flags) wd' = seed /\
  Serving srv = chain (jsonMapping (readResult wd (jsonFile flags)).1)
                      (yamlMapping (readResult wd (yamlFile flags)).1)
                      (snapshot (boltFile flags) wd').
Proof.
  intros Hmain.
  destruct (openFailure wd (boltFile flags)) as [e|] eqn:Ho.
  { by rewrite (main_open_fails _ _ _ Ho) in Hmain. }
  destruct (bucketOf (boltFile flags) wd) as [b|] eqn:Hb.
  { by rewrite (main_bucket_exists _ _ _ Ho Hb) in Hmain. }
  rewrite (main_after_seeding _ _ Ho Hb) in Hmain.
  unfold yamlMapping, jsonMapping, snapshot.
  destruct (readResult wd (yamlFile flags)) as [yml [e|]]; [done|]. simpl.
  destruct (yaml.Unmarshal yml) as [ymlPaths [e|]]; [done|]. simpl.
  destruct (json.Unmarshal (readResult wd (jsonFile flags)).1)
    as [jsonPaths [e|]]; [done|]. simpl.
  injection Hmain as <- <-. rewrite bucketOf_seeded. done.
Qed.


End Main.

(** A cleaned path is rooted. *)
Lemma cleanPath_rooted p : exists rest, http.cleanPath p = String "/"%char rest.
Proof.
  unfold http.cleanPath, http.Clean.
  case_bool_decide; [by eexists|].
  destruct (_ && _); simpl; by eexists.
Qed.

Lemma append_slash_nonempty rest : rest +:+ "/" <> "".
Proof. by destruct rest. Qed.

Lemma shouldRedirect_defaultMux rest :
  http.shouldRedirect defaultMux (String "/"%char rest) = false.
Proof.
  unfold http.shouldRedirect, http.registered, defaultMux, http.HandleFunc,
    http.NewServeMux. simpl.
  case_bool_decide; [done|].
  case_bool_decide as Hin; [|done].
  apply list_elem_of_singleton in Hin. injection Hin as Hin.
  by apply append_slash_nonempty in Hin.
Qed.

Lemma handler_defaultMux rest :
  http.ServeMux_handler defaultMux (String "/"%char rest) = hello.
Proof.
  unfold http.ServeMux_handler, defaultMux, http.HandleFunc, http.NewServeMux.
  simpl. unfold http.pathMatch. simpl.
  destruct rest; simpl; first [done | by case_bool_decide].
Qed.

(** The default router hands a request whose path is its own cleaned
    form to [hello]. *)
Lemma defaultMux_canonical w r :
  http.cleanPath (requestPath r) = requestPath r ->
  http.ServeMux_ServeHTTP defaultMux w r = hello w r.
Proof.
  unfold requestPath. intros Hclean.
  destruct (cleanPath_rooted (http.Path (http.url r))) as [rest Hrest].
  rewrite Hclean in Hrest.
  unfold http.ServeMux_ServeHTTP, http.ServeMux_Handler.
  rewrite Hclean, Hrest, shouldRedirect_defaultMux, handler_defaultMux.
  case_bool_decide; [done|].
  case_bool_decide; [done|]. by case_bool_decide.
Qed.

Lemma lookupHandler_contract mapping fallback :
  LookupContract mapping fallback (lookupHandler mapping fallback).
Proof.
  intros w r. unfold lookupHandler.
  by destruct (mapping !! requestPath r).
Qed.

(* ===================================================================== *)
(** ** Runs on the example inputs *)
(* ===================================================================== *)

Lemma sample_fresh_starts :
  Sample.main defaultFlags Sample.fresh
    = (Returns Sample.server, seeded "bolt.db" Sample.fresh).
Proof.
  unfold Sample.main. rewrite main_after_seeding by reflexivity. reflexivity.
Qed.

(* ===================================================================== *)
(** ** Chain assembly *)
(* ===================================================================== *)

(** C1, as stated, fails.  ["/urlshort-godoc"] is a key of the static map,
    and the YAML file maps it too: the server that [main] starts answers
    with a redirect to the YAML file's URL, not to the static map's. *)
Lemma static_map_shadowed_by_yaml :
  pathsToUrls !! requestPath (Sample.GET "/urlshort-godoc")
    = Some "https://godoc.org/github.com/gophercises/urlshort" /\
  match Sample.main defaultFlags Sample.fresh with
  | (Returns srv, _) =>
      Serving srv [] (Sample.GET "/urlshort-godoc")
        = [http.CallRedirect "https://example.com/from-yaml" 302] /\
      Serving srv [] (Sample.GET "/urlshort-godoc")
        <> [http.CallRedirect
              "https://godoc.org/github.com/gophercises/urlshort" 302]
  | _ => False
  end.
Proof.
  split; [reflexivity|]. rewrite sample_fresh_starts.
  split; [vm_compute; reflexivity | vm_compute; discriminate].
Qed.

(** C1, amended.  The handler that [main] serves tests the sources in
    the order JSON file, YAML file, Bolt store, static map, and hands the
    request to the default router when none has the request path: the
    first source that has the path decides the 302 redirect.  So a path
    of the JSON mapping is redirected to the JSON mapping's URL whatever
    the other sources hold, and a path of the static map is redirected
    to the static map's URL when the JSON, YAML and Bolt mappings do not
    have it. *)
Theorem chain_priority `{yaml.Decoder} `{json.Decoder} flags wd srv wd' :
  main flags wd = (Returns srv, wd') ->
  let jsonPaths := jsonMapping (readResult wd (jsonFile flags)).1 in
  let yamlPaths := yamlMapping (readResult wd (yamlFile flags)).1 in
  let boltPaths := snapshot (boltFile flags) wd' in
  forall w r,
    Serving srv w r =
    match jsonPaths !! requestPath r with
    | Some target => w ++ [http.CallRedirect target 302]
    | None =>
    match yamlPaths !! requestPath r with
    | Some target => w ++ [http.CallRedirect target 302]
    | None =>
    match boltPaths !! requestPath r with
    | Some target => w ++ [http.CallRedirect target 302]
    | None =>
    match pathsToUrls !! requestPath r with
    | Some target => w ++ [http.CallRedirect target 302]
    | None => http.ServeMux_ServeHTTP defaultMux w r
    end end end end /\
    (forall target,
       jsonPaths !! requestPath r = Some target ->
       Serving srv w r = w ++ [http.CallRedirect target 302]) /\
    (forall target,
       pathsToUrls !! requestPath r = Some target ->
       jsonPaths !! requestPath r = None ->
       yamlPaths !! requestPath r = None ->
       boltPaths !! requestPath r = None ->
       Serving srv w r = w ++ [http.CallRedirect target 302]).
Proof.
  intros Hmain jsonPaths yamlPaths boltPaths w r.
  apply main_returns_inv in Hmain as (_ & _ & _ & _ & _ & _ & _ & ->).
  fold jsonPaths yamlPaths boltPaths.
  assert (Hchain : chain jsonPaths yamlPaths boltPaths w r =
    match jsonPaths !! requestPath r with
    | Some target => w ++ [http.CallRedirect target 302]
    | None =>
    match yamlPaths !! requestPath r with
    | Some target => w ++ [http.CallRedirect target 302]
    | None =>
    match boltPaths !! requestPath r with
    | Some target => w ++ [http.CallRedirect target 302]
    | None =>
    match pathsToUrls !! requestPath r with
    | Some target => w ++ [http.CallRedirect target 302]
    | None => http.ServeMux_ServeHTTP defaultMux w r
    end end end end).
  { unfold chain, lookupHandler.
    destruct (jsonPaths !! requestPath r); [done|].
    destruct (yamlPaths !! requestPath r); [done|].
    destruct (boltPaths !! requestPath r); [done|].
    by destruct (pathsToUrls !! requestPath r). }
  split; [exact Hchain|]. rewrite Hchain. split.
  - by intros target ->.
  - by intros target -> -> -> ->.
Qed.

Lemma chain_priority_witness :
  Sample.main defaultFlags Sample.fresh
    = (Returns Sample.server, seeded "bolt.db" Sample.fresh) /\
  Serving Sample.server [] (Sample.GET "/yaml-godoc")
    = [http.CallRedirect "https://godoc.org/gopkg.in/yaml.v2" 302] /\
  Serving Sample.server [] (Sample.GET "/j")
    = [http.CallRedirect "https://j.example" 302].
Proof.
  split; [exact sample_fresh_starts|].
  destruct (chain_priority (H:=Sample.yamlDecoder) (H0:=Sample.jsonDecoder)
              _ _ _ _ sample_fresh_starts [] (Sample.GET "/yaml-godoc"))
    as (_ & _ & Hstatic).
  destruct (chain_priority (H:=Sample.yamlDecoder) (H0:=Sample.jsonDecoder)
              _ _ _ _ sample_fresh_starts [] (Sample.GET "/j"))
    as (_ & Hjson & _).
  split.
  - apply Hstatic; vm_compute; reflexivity.
  - apply Hjson. vm_compute. reflexivity.
Defined.




(* ===================================================================== *)
(** ** The lookup handlers *)
(* ===================================================================== *)

(** C3.  Each of the four handlers, once built, answers a request whose
    path is a key of its mapping with a 302 redirect to the mapped URL,
    and any other request with exactly what its fallback answers.  The
    mapping is the argument of [MapHandler], the map built from the
    decoded records for [YAMLHandler] and [JSONHandler], and the contents
    of the bucket for [BoltHandler]. *)
Theorem lookup_handlers_redirect_or_fallback `{yaml.Decoder} `{json.Decoder}
    (fallback : http.Handler) :
  (forall pathsToUrls,
     LookupContract pathsToUrls fallback
       (http.HandlerFunc_ServeHTTP (MapHandler pathsToUrls fallback))) /\
  (forall yml h,
     YAMLHandler yml fallback = (h, None) ->
     LookupContract (yamlMapping yml) fallback (http.HandlerFunc_ServeHTTP h)) /\
  (forall data h,
     JSONHandler data fallback = (h, None) ->
     LookupContract (jsonMapping data) fallback (http.HandlerFunc_ServeHTTP h)) /\
  (forall boltFile wd h err wd',
     BoltHandler boltFile fallback wd = (Returns (h, err), wd') ->
     LookupContract (snapshot boltFile wd') fallback
       (http.HandlerFunc_ServeHTTP h)).
Proof.
  repeat split.
  - intros m. apply (lookupHandler_contract m fallback).
  - intros yml h. unfold YAMLHandler, yamlMapping.
    destruct (yaml.Unmarshal yml) as [ymlPaths [e|]]; [done|].
    intros [= <-]. apply (lookupHandler_contract _ fallback).
  - intros data h. unfold JSONHandler, jsonMapping.
    destruct (json.Unmarshal data) as [jsonPaths [e|]]; [done|].
    intros [= <-]. apply (lookupHandler_contract _ fallback).
  - intros file wd h err wd' Hret.
    destruct (BoltHandler_cases file fallback wd)
      as [(e & _ & Hb) | [(b & _ & _ & Hb) | (_ & _ & Hb)]];
      rewrite Hb in Hret; try done.
    injection Hret as <- <- <-. unfold snapshot.
    rewrite bucketOf_seeded. apply (lookupHandler_contract seed fallback).
Qed.

Lemma lookup_handlers_redirect_or_fallback_witness :
  LookupContract pathsToUrls hello
    (http.HandlerFunc_ServeHTTP (MapHandler pathsToUrls hello)) /\
  LookupContract (yamlMapping (H:=Sample.yamlDecoder) Sample.yamlDoc) hello
    (http.HandlerFunc_ServeHTTP
       (YAMLHandler (H:=Sample.yamlDecoder) Sample.yamlDoc hello).1) /\
  LookupContract (jsonMapping (H:=Sample.jsonDecoder) Sample.jsonDoc) hello
    (http.HandlerFunc_ServeHTTP
       (JSONHandler (H:=Sample.jsonDecoder) Sample.jsonDoc hello).1) /\
  LookupContract (snapshot "bolt.db" (seeded "bolt.db" Sample.fresh)) hello
    (http.HandlerFunc_ServeHTTP (Some (lookupHandler seed hello))).
Proof.
  destruct (lookup_handlers_redirect_or_fallback
              (H:=Sample.yamlDecoder) (H0:=Sample.jsonDecoder) hello)
    as (HM & HY & HJ & HB).
  split; [apply HM|]. split; [by apply HY|]. split; [by apply HJ|].
  apply (HB "bolt.db" Sample.fresh _ None).
  by apply BoltHandler_seeds.
Defined.

(* ===================================================================== *)
(** ** Malformed input *)
(* ===================================================================== *)

(** C4.  When the decoder reports an error, [YAMLHandler] (and likewise
    [JSONHandler]) returns a nil handler together with that error,
    whatever the decoder left in the slice; and [main], given a file
    whose bytes the decoder rejects, stops before [ListenAndServe], with
    a panic carrying the decoder's error once the earlier steps are
    through. *)
Theorem malformed_input_aborts `{yaml.Decoder} `{json.Decoder} :
  (forall yml fallback e,
     (yaml.Unmarshal yml).2 = Some e ->
     YAMLHandler yml fallback = (None, Some e)) /\
  (forall data fallback e,
     (json.Unmarshal data).2 = Some e ->
     JSONHandler data fallback = (None, Some e)) /\
  (forall flags wd e,
     (yaml.Unmarshal (readResult wd (yamlFile flags)).1).2 = Some e \/
     (json.Unmarshal (readResult wd (jsonFile flags)).1).2 = Some e ->
     aborted (main flags wd).1) /\
  (forall flags wd yml e,
     openFailure wd (boltFile flags) = None ->
     bucketOf (boltFile flags) wd = None ->
     readResult wd (yamlFile flags) = (yml, None) ->
     (yaml.Unmarshal yml).2 = Some e ->
     (main flags wd).1 = Panics (PanicError e)) /\
  (forall flags wd yml e,
     openFailure wd (boltFile flags) = None ->
     bucketOf (boltFile flags) wd = None ->
     readResult wd (yamlFile flags) = (yml, None) ->
     (yaml.Unmarshal yml).2 = None ->
     (json.Unmarshal (readResult wd (jsonFile flags)).1).2 = Some e ->
     (main flags wd).1 = Panics (PanicError e)).
Proof.
  split; [|split; [|split; [|split]]].
  - intros yml fallback e He. unfold YAMLHandler.
    destruct (yaml.Unmarshal yml) as [ymlPaths err]. simpl in He. by subst.
  - intros data fallback e He. unfold JSONHandler.
    destruct (json.Unmarshal data) as [jsonPaths err]. simpl in He. by subst.
  - intros flags wd e He.
    destruct (main flags wd) as [[srv|e'|v] wd'] eqn:Hmain; simpl; try done.
    apply main_returns_inv in Hmain as (_ & _ & _ & Hy & Hj & _).
    destruct He as [He|He]; congruence.
  - intros flags wd yml e Ho Hb Hr He.
    rewrite (main_after_seeding _ _ Ho Hb), Hr. simpl.
    destruct (yaml.Unmarshal yml) as [ymlPaths err]. simpl in He. by subst.
  - intros flags wd yml e Ho Hb Hr Hy He.
    rewrite (main_after_seeding _ _ Ho Hb), Hr. simpl.
    destruct (yaml.Unmarshal yml) as [ymlPaths err]. simpl in Hy. subst.
    destruct (json.Unmarshal _) as [jsonPaths err]. simpl in He. by subst.
Qed.

Lemma malformed_input_aborts_witness :
  YAMLHandler (H:=Sample.yamlDecoder) "{" hello
    = (None, Some (Err "yaml: did not find expected node content")) /\
  JSONHandler (H:=Sample.jsonDecoder) "{" hello
    = (None, Some (Err "unexpected end of JSON input")) /\
  aborted (Sample.main defaultFlags Sample.brokenYaml).1 /\
  (Sample.main defaultFlags Sample.brokenYaml).1
    = Panics (PanicError (Err "yaml: did not find expected node content")).
Proof.
  destruct (malformed_input_aborts
              (H:=Sample.yamlDecoder) (H0:=Sample.jsonDecoder))
    as (HY & HJ & HA & HPY & _).
  split; [by apply HY|]. split; [by apply HJ|].
  split; [apply (HA _ _ (Err "yaml: did not find expected node content"));
          by left|].
  by apply (HPY defaultFlags Sample.brokenYaml "{").
Defined.

(* ===================================================================== *)
(** ** The redirect map builder *)
(* ===================================================================== *)

(** C5.  A record without a ["path"] field is entered under the empty
    key, a record without a ["url"] field with the empty URL; the loop
    goes on with the records that follow and the key stays in the
    result.  The builder has no error result. *)
Theorem missing_field_defaults_empty
    (before after : list (gmap string string)) (m : gmap string string) :
  buildRedirectMap (before ++ m :: after)
    = foldl addRecord (buildRedirectMap (before ++ [m])) after /\
  (m !! "path" = None ->
   buildRedirectMap (before ++ [m])
     = <["" := recordURL m]> (buildRedirectMap before) /\
   is_Some (buildRedirectMap (before ++ m :: after) !! "")) /\
  (m !! "url" = None ->
   buildRedirectMap (before ++ [m])
     = <[recordPath m := ""]> (buildRedirectMap before) /\
   is_Some (buildRedirectMap (before ++ m :: after) !! recordPath m)).
Proof.
  assert (Hsplit : buildRedirectMap (before ++ m :: after)
            = foldl addRecord (buildRedirectMap (before ++ [m])) after).
  { by rewrite (cons_middle m before after), (assoc_L (++)),
      buildRedirectMap_app. }
  split; [exact Hsplit|]. rewrite Hsplit, buildRedirectMap_snoc.
  split; intros Hm.
  - assert (recordPath m = "") as Hp by (unfold recordPath, index; by rewrite Hm).
    rewrite Hp. split; [done|].
    apply foldl_insert_keeps. rewrite lookup_insert_eq. by eexists.
  - assert (recordURL m = "") as Hu by (unfold recordURL, index; by rewrite Hm).
    rewrite Hu. split; [done|].
    apply foldl_insert_keeps. rewrite lookup_insert_eq. by eexists.
Qed.

Lemma missing_field_defaults_empty_witness :
  buildRedirectMap ([Sample.record "/a" "https://a.example"] ++ [Sample.noPath])
    = <["" := "https://x.example"]>
        (buildRedirectMap [Sample.record "/a" "https://a.example"]) /\
  buildRedirectMap ([Sample.record "/a" "https://a.example"] ++ [Sample.noURL])
    = <["/x" := ""]>
        (buildRedirectMap [Sample.record "/a" "https://a.example"]).
Proof.
  split.
  - apply (missing_field_defaults_empty
             [Sample.record "/a" "https://a.example"] [] Sample.noPath).
    reflexivity.
  - apply (missing_field_defaults_empty
             [Sample.record "/a" "https://a.example"] [] Sample.noURL).
    reflexivity.
Defined.

(** C6.  The URL of a path is the URL of the last record, in input
    order, that has this path: a later record silently overwrites an
    earlier one.  The builder has no error result. *)
Theorem duplicate_paths_last_wins (data : list (gmap string string)) :
  (forall p,
     buildRedirectMap data !! p
       = recordURL <$> last (filter (fun m => recordPath m = p) data)) /\
  (forall before m after,
     data = before ++ m :: after ->
     (forall m', m' ∈ after -> recordPath m' <> recordPath m) ->
     buildRedirectMap data !! recordPath m = Some (recordURL m)).
Proof.
  split; [apply buildRedirectMap_lookup|].
  intros before m after -> Hlast.
  rewrite buildRedirectMap_lookup, filter_app, filter_cons_True by done.
  rewrite (filter_path_none after) by done.
  by rewrite last_snoc.
Qed.

Lemma duplicate_paths_last_wins_witness :
  buildRedirectMap Sample.repeated !! "/a" = Some "https://last.example".
Proof.
  apply (duplicate_paths_last_wins Sample.repeated)
    with (before := [Sample.record "/a" "https://first.example";
                     Sample.record "/b" "https://b.example"])
         (m := Sample.record "/a" "https://last.example")
         (after := []).
  - reflexivity.
  - intros m' Hm'. by apply elem_of_nil in Hm'.
Defined.

(* ===================================================================== *)
(** ** Round trip through a file *)
(* ===================================================================== *)

(** C7.  Let [doc] be a serialization of well-formed [records], that is,
    a document the decoder reads back as exactly these records.  Then the
    constructor succeeds and the mapping it builds has one entry per
    distinct path, the last record of a path giving its URL; with
    pairwise-distinct paths it has as many entries as there are records,
    each path mapped to its record's URL. *)
Theorem roundtrip_entries `{yaml.Decoder} `{json.Decoder}
    (records : list (gmap string string)) (doc : string)
    (fallback : http.Handler) :
  Forall wellFormed records ->
  (yaml.Unmarshal doc = (records, None) ->
   YAMLHandler doc fallback
     = (Some (lookupHandler (buildRedirectMap records) fallback), None) /\
   rebuilt (yamlMapping doc) records) /\
  (json.Unmarshal doc = (records, None) ->
   JSONHandler doc fallback
     = (Some (lookupHandler (buildRedirectMap records) fallback), None) /\
   rebuilt (jsonMapping doc) records).
Proof.
  intros Hwf. split; intros Hdoc.
  - unfold YAMLHandler, yamlMapping. rewrite Hdoc.
    split; [done|]. by apply buildRedirectMap_rebuilt.
  - unfold JSONHandler, jsonMapping. rewrite Hdoc.
    split; [done|]. by apply buildRedirectMap_rebuilt.
Qed.

Lemma record_wellFormed path url : wellFormed (Sample.record path url).
Proof.
  unfold wellFormed, Sample.record. split.
  - rewrite lookup_insert_eq. by eexists.
  - rewrite lookup_insert_ne by done. rewrite lookup_insert_eq. by eexists.
Qed.

Lemma sample_records_wellFormed :
  Forall wellFormed Sample.yamlRecords /\ Forall wellFormed Sample.jsonRecords.
Proof.
  split; repeat (apply Forall_cons; split; [apply record_wellFormed|]);
    apply Forall_nil_2.
Qed.

Lemma roundtrip_entries_witness :
  size (yamlMapping (H:=Sample.yamlDecoder) Sample.yamlDoc) = 2%nat /\
  yamlMapping (H:=Sample.yamlDecoder) Sample.yamlDoc !! "/b"
    = Some "https://b.example" /\
  size (jsonMapping (H:=Sample.jsonDecoder) Sample.jsonDoc) = 1%nat.
Proof.
  destruct sample_records_wellFormed as [HwfY HwfJ].
  destruct (roundtrip_entries (H:=Sample.yamlDecoder) (H0:=Sample.jsonDecoder)
              Sample.yamlRecords Sample.yamlDoc hello HwfY)
    as [HY _].
  destruct HY as (_ & _ & Hlookup & Hdistinct); [vm_compute; reflexivity|].
  destruct (roundtrip_entries (H:=Sample.yamlDecoder) (H0:=Sample.jsonDecoder)
              Sample.jsonRecords Sample.jsonDoc hello HwfJ)
    as [_ HJ].
  destruct HJ as (_ & _ & _ & HdistinctJ); [vm_compute; reflexivity|].
  split; [|split].
  - apply Hdistinct. vm_compute.
    apply NoDup_cons; split; [by intros ?%list_elem_of_singleton|].
    apply NoDup_singleton.
  - rewrite Hlookup. vm_compute. reflexivity.
  - apply HdistinctJ. vm_compute. apply NoDup_singleton.
Defined.

(* ===================================================================== *)
(** ** The Bolt store *)
(* ===================================================================== *)

(** C8 fails on the code.  A call of [BoltHandler] that returns leaves
    the bucket in the file; the next call on that file finds the bucket,
    gets a nil bucket and [ErrBucketExists] from [CreateBucket], passes
    the guard (which tests the [err] of [bolt.Open]) and panics in [Put]
    on the nil bucket.  The file keeps its single seed entry. *)
Theorem BoltHandler_reopen_panics boltFile fallback fallback' wd h err wd1 :
  BoltHandler boltFile fallback wd = (Returns (h, err), wd1) ->
  snapshot boltFile wd1 = seed /\
  BoltHandler boltFile fallback' wd1 = (Panics NilDereference, wd1).
Proof.
  intros Hfirst.
  destruct (BoltHandler_cases boltFile fallback wd)
    as [(e & _ & Hb) | [(b & _ & _ & Hb) | (Ho & _ & Hb)]];
    rewrite Hb in Hfirst; try done.
  injection Hfirst as <- <- <-. unfold snapshot. rewrite bucketOf_seeded.
  split; [done|].
  apply (BoltHandler_bucket_exists _ _ _ seed); [done|apply bucketOf_seeded].
Qed.

Lemma BoltHandler_reopen_panics_witness :
  BoltHandler "bolt.db" hello Sample.fresh
    = (Returns (Some (lookupHandler seed hello), None),
       seeded "bolt.db" Sample.fresh) /\
  BoltHandler "bolt.db" hello (seeded "bolt.db" Sample.fresh)
    = (Panics NilDereference, seeded "bolt.db" Sample.fresh).
Proof.
  assert (BoltHandler "bolt.db" hello Sample.fresh
            = (Returns (Some (lookupHandler seed hello), None),
               seeded "bolt.db" Sample.fresh)) as Hfirst
    by (by apply BoltHandler_seeds).
  split; [exact Hfirst|].
  apply (BoltHandler_reopen_panics _ _ hello _ _ _ _ Hfirst).
Defined.

(** C9.  Whenever [BoltHandler] returns, its error is nil and its
    handler is not; a failure of [bolt.Open] ends the process through
    [log.Fatal], inside [BoltHandler] and hence inside [main], and is
    never handed to the caller. *)
Theorem BoltHandler_error_always_nil `{yaml.Decoder} `{json.Decoder} :
  (forall boltFile fallback wd h err wd',
     BoltHandler boltFile fallback wd = (Returns (h, err), wd') ->
     err = None /\ is_Some h) /\
  (forall boltFile fallback wd e,
     openFailure wd boltFile = Some e ->
     BoltHandler boltFile fallback wd = (Fatal e, wd)) /\
  (forall flags wd e,
     openFailure wd (boltFile flags) = Some e ->
     main flags wd = (Fatal e, wd)).
Proof.
  split; [|split].
  - intros file fallback wd h err wd' Hret.
    destruct (BoltHandler_cases file fallback wd)
      as [(e & _ & Hb) | [(b & _ & _ & Hb) | (_ & _ & Hb)]];
      rewrite Hb in Hret; try done.
    injection Hret as <- <- <-. split; [done|by eexists].
  - intros. by apply BoltHandler_open_fails.
  - intros. by apply main_open_fails.
Qed.

Lemma BoltHandler_error_always_nil_witness :
  BoltHandler "bolt.db" hello Sample.locked
    = (Fatal (Err "timeout"), Sample.locked) /\
  Sample.main defaultFlags Sample.locked
    = (Fatal (Err "timeout"), Sample.locked).
Proof.
  destruct (BoltHandler_error_always_nil
              (H:=Sample.yamlDecoder) (H0:=Sample.jsonDecoder))
    as (_ & HF & HM).
  split; [by apply HF | by apply HM].
Defined.

(* ===================================================================== *)
(** ** The JSON file that cannot be read *)
(* ===================================================================== *)

(** C10.  [main] never looks at the error of the second [ReadFile]: on
    two machines that differ only in that error, [main] ends alike.
    When [main] gets as far as that read and the read fails, what
    happens next is decided by [JSONHandler] on the bytes the read
    returned (none at all when the file could not be opened): a decoder
    error stops the process with a panic that carries the decoder's
    error, not the read error; without a decoder error the server would
    start. *)
Theorem json_read_error_discarded `{yaml.Decoder} `{json.Decoder}
    (flags : Flags) :
  (forall wd1 wd2,
     openFailure wd1 (boltFile flags) = openFailure wd2 (boltFile flags) ->
     dbFiles wd1 !! boltFile flags = dbFiles wd2 !! boltFile flags ->
     readResult wd1 (yamlFile flags) = readResult wd2 (yamlFile flags) ->
     (readResult wd1 (jsonFile flags)).1 = (readResult wd2 (jsonFile flags)).1 ->
     (main flags wd1).1 = (main flags wd2).1) /\
  (forall wd yml jsonData readErr,
     openFailure wd (boltFile flags) = None ->
     bucketOf (boltFile flags) wd = None ->
     readResult wd (yamlFile flags) = (yml, None) ->
     (yaml.Unmarshal yml).2 = None ->
     readResult wd (jsonFile flags) = (jsonData, Some readErr) ->
     (forall e fallback,
        (json.Unmarshal jsonData).2 = Some e ->
        JSONHandler jsonData fallback = (None, Some e) /\
        (main flags wd).1 = Panics (PanicError e)) /\
     ((json.Unmarshal jsonData).2 = None ->
      exists srv, (main flags wd).1 = Returns srv)).
Proof.
  split.
  - intros wd1 wd2 Ho Hdb Hy Hj.
    assert (bucketOf (boltFile flags) wd1 = bucketOf (boltFile flags) wd2)
      as Hb by (unfold bucketOf; by rewrite Hdb).
    destruct (openFailure wd2 (boltFile flags)) as [e|] eqn:Ho2.
    { by rewrite (main_open_fails _ _ _ Ho), (main_open_fails _ _ _ Ho2). }
    destruct (bucketOf (boltFile flags) wd2) as [b|] eqn:Hb2.
    { by rewrite (main_bucket_exists _ _ _ Ho Hb),
        (main_bucket_exists _ _ _ Ho2 Hb2). }
    rewrite (main_after_seeding _ _ Ho Hb), (main_after_seeding _ _ Ho2 Hb2).
    simpl. by rewrite Hy, Hj.
  - intros wd yml jsonData readErr Ho Hb Hy Hdec Hj.
    rewrite (main_after_seeding _ _ Ho Hb), Hy, Hj. simpl.
    destruct (yaml.Unmarshal yml) as [ymlPaths yerr]. simpl in Hdec. subst.
    unfold JSONHandler.
    destruct (json.Unmarshal jsonData) as [jsonPaths [e'|]]; simpl; split.
    + by intros e fallback [= ->].
    + done.
    + done.
    + intros _. by eexists.
Qed.

Lemma json_read_error_discarded_witness :
  readResult Sample.noJson (jsonFile defaultFlags)
    = ("", Some (Err "open urlmappings.json: no such file or directory")) /\
  JSONHandler (H:=Sample.jsonDecoder) "" hello
    = (None, Some (Err "unexpected end of JSON input")) /\
  (Sample.main defaultFlags Sample.noJson).1
    = Panics (PanicError (Err "unexpected end of JSON input")).
Proof.
  split; [reflexivity|].
  destruct (json_read_error_discarded
              (H:=Sample.yamlDecoder) (H0:=Sample.jsonDecoder) defaultFlags)
    as [_ Hreach].
  destruct (Hreach Sample.noJson Sample.yamlDoc ""
              (Err "open urlmappings.json: no such file or directory"))
    as [Hpanic _]; try (vm_compute; reflexivity).
  apply Hpanic. vm_compute. reflexivity.
Defined.


(* ===================================================================== *)
(** ** Further properties: the redirect map builder *)
(* ===================================================================== *)

(** An entry of the built map was read off some record. *)
Lemma buildRedirectMap_origin data p u :
  buildRedirectMap data !! p = Some u ->
  exists m, m ∈ data /\ recordPath m = p /\ recordURL m = u.
Proof.
  rewrite buildRedirectMap_lookup. intros Hlast.
  apply fmap_Some in Hlast as (m & Hlast & ->).
  apply last_Some_elem_of, list_elem_of_filter in Hlast as [Hp Hm].
  by exists m.
Qed.

Lemma buildRedirectMap_app_union before after :
  buildRedirectMap (before ++ after)
    = buildRedirectMap after ∪ buildRedirectMap before.
Proof.
  induction after as [|m after IH] using rev_ind.
  - rewrite app_nil_r. unfold buildRedirectMap at 2. simpl.
    by rewrite (left_id_L ∅ (∪)).
  - rewrite (assoc_L (++)), !buildRedirectMap_snoc, IH.
    by rewrite insert_union_l.
Qed.

Lemma length_remove_dups_le (l : list string) :
  (length (remove_dups l) <= length l)%nat.
Proof.
  induction l as [|x l IH]; simpl; [done|].
  destruct (decide_rel elem_of x l); simpl; lia.
Qed.

Lemma length_remove_dups_eq (l : list string) :
  length (remove_dups l) = length l <-> NoDup l.
Proof.
  split; [|intros Hnd; by rewrite remove_dups_NoDup].
  induction l as [|x l IH]; simpl; [constructor|].
  pose proof (length_remove_dups_le l).
  destruct (decide_rel elem_of x l); simpl; intros Hlen; [lia|].
  constructor; [done|]. apply IH. lia.
Qed.

(** X1.  The keys of the built map are exactly the paths of the records:
    a path is a key if and only if some record has it (the empty path
    for a record without the field). *)
Theorem buildRedirectMap_keys (data : list (gmap string string)) (p : string) :
  is_Some (buildRedirectMap data !! p) <->
  exists m, m ∈ data /\ recordPath m = p.
Proof.
  rewrite <- elem_of_dom, buildRedirectMap_dom, elem_of_list_to_set,
    list_elem_of_fmap.
  split; intros (m & Hp & Hm); exists m; by split.
Qed.

Lemma buildRedirectMap_keys_witness :
  is_Some (buildRedirectMap [Sample.noPath] !! "").
Proof.
  apply (buildRedirectMap_keys [Sample.noPath] "").
  exists Sample.noPath. split; [apply list_elem_of_here | reflexivity].
Defined.

(** X2.  The builder invents nothing: every entry of the built map pairs
    the path and the URL of one input record, namely of the last record
    of the input that has this path. *)
Theorem buildRedirectMap_entry_origin
    (data : list (gmap string string)) (p u : string) :
  buildRedirectMap data !! p = Some u ->
  exists before m after,
    data = before ++ m :: after /\
    recordPath m = p /\ recordURL m = u /\
    forall m', m' ∈ after -> recordPath m' <> p.
Proof.
  induction data as [|m data IH] using rev_ind; [done|].
  rewrite buildRedirectMap_snoc.
  destruct (decide (recordPath m = p)) as [Hp|Hp].
  - rewrite <- Hp, lookup_insert_eq. intros [= <-].
    exists data, m, []. repeat split; try done.
    intros m' Hm'. by apply elem_of_nil in Hm'.
  - rewrite lookup_insert_ne by done. intros Hlook.
    destruct (IH Hlook) as (before & m0 & after & -> & Hp0 & Hu0 & Hafter).
    exists before, m0, (after ++ [m]).
    split; [by rewrite <- (assoc_L (++))|]. repeat split; try done.
    intros m' [Hm'|Hm']%elem_of_app; [by apply Hafter|].
    by apply list_elem_of_singleton in Hm' as ->.
Qed.

Lemma buildRedirectMap_entry_origin_witness :
  exists before m after,
    Sample.repeated = before ++ m :: after /\
    recordPath m = "/a" /\ recordURL m = "https://last.example" /\
    forall m', m' ∈ after -> recordPath m' <> "/a".
Proof.
  apply (buildRedirectMap_entry_origin Sample.repeated "/a"
           "https://last.example").
  vm_compute. reflexivity.
Defined.

(** X3.  The built map never has more entries than there are records,
    and it has exactly as many if and only if the paths of the records
    are pairwise distinct; no records give the empty map. *)
Theorem buildRedirectMap_size_bound (data : list (gmap string string)) :
  (size (buildRedirectMap data) <= length data)%nat /\
  (size (buildRedirectMap data) = length data <->
   NoDup (recordPath <$> data)) /\
  (data = [] -> buildRedirectMap data = ∅).
Proof.
  rewrite buildRedirectMap_size.
  rewrite <- (length_fmap recordPath data).
  split; [apply length_remove_dups_le|].
  split; [apply length_remove_dups_eq|]. by intros ->.
Qed.

Lemma buildRedirectMap_size_bound_witness :
  (size (buildRedirectMap Sample.repeated) <= 3)%nat /\
  buildRedirectMap [] = ∅.
Proof.
  destruct (buildRedirectMap_size_bound Sample.repeated) as (Hle & _ & _).
  destruct (buildRedirectMap_size_bound []) as (_ & _ & Hempty).
  split; [exact Hle | by apply Hempty].
Defined.

(** X4.  Building from two sequences laid end to end gives the union of
    the two maps in which the later sequence wins every shared path. *)
Theorem buildRedirectMap_concat (before after : list (gmap string string)) :
  buildRedirectMap (before ++ after)
    = buildRedirectMap after ∪ buildRedirectMap before /\
  (forall p u, buildRedirectMap after !! p = Some u ->
               buildRedirectMap (before ++ after) !! p = Some u) /\
  (forall p, buildRedirectMap after !! p = None ->
             buildRedirectMap (before ++ after) !! p
               = buildRedirectMap before !! p).
Proof.
  rewrite buildRedirectMap_app_union. split; [done|]. split.
  - intros p u Hp. by apply lookup_union_Some_l.
  - intros p Hp. by apply lookup_union_r.
Qed.

Lemma buildRedirectMap_concat_witness :
  buildRedirectMap ([Sample.record "/a" "https://first.example"] ++
                    [Sample.record "/a" "https://last.example"]) !! "/a"
    = Some "https://last.example".
Proof.
  apply (buildRedirectMap_concat
           [Sample.record "/a" "https://first.example"]
           [Sample.record "/a" "https://last.example"]).
  vm_compute. reflexivity.
Defined.

(** X5.  Only the ["path"] and ["url"] fields are read: two inputs whose
    records agree, position by position, on these two fields build the
    same map, whatever other fields the records carry. *)
Theorem buildRedirectMap_reads_two_fields
    (data data' : list (gmap string string)) :
  recordPath <$> data = recordPath <$> data' ->
  recordURL <$> data = recordURL <$> data' ->
  buildRedirectMap data = buildRedirectMap data'.
Proof.
  unfold buildRedirectMap. generalize (∅ : gmap string string).
  revert data'. induction data as [|m data IH]; intros [|m' data'] acc Hp Hu;
    try done.
  simpl in *. injection Hp as Hp Hps. injection Hu as Hu Hus.
  unfold recordPath, recordURL in Hp, Hu. rewrite Hp, Hu. by apply IH.
Qed.

Lemma buildRedirectMap_reads_two_fields_witness :
  buildRedirectMap [More.tagged "old"] = buildRedirectMap [More.tagged "new"].
Proof.
  apply buildRedirectMap_reads_two_fields; vm_compute; reflexivity.
Defined.

(** X6.  When the paths are pairwise distinct the order of the records
    does not matter: every rearrangement of the input builds the same
    map. *)
Theorem buildRedirectMap_permutation (data data' : list (gmap string string)) :
  NoDup (recordPath <$> data) ->
  data ≡ₚ data' ->
  buildRedirectMap data = buildRedirectMap data'.
Proof.
  intros Hnd Hperm.
  assert (NoDup (recordPath <$> data')) as Hnd' by (by rewrite <- Hperm).
  apply map_eq. intros p.
  destruct (buildRedirectMap data !! p) as [u|] eqn:Hp.
  - apply buildRedirectMap_origin in Hp as (m & Hm & <- & <-).
    symmetry. apply buildRedirectMap_NoDup; [done|]. by rewrite <- Hperm.
  - destruct (buildRedirectMap data' !! p) as [u|] eqn:Hp'; [|done].
    apply buildRedirectMap_origin in Hp' as (m & Hm & <- & <-).
    rewrite <- Hperm in Hm.
    by rewrite (buildRedirectMap_NoDup data m Hnd Hm) in Hp.
Qed.

Lemma buildRedirectMap_permutation_witness :
  buildRedirectMap Sample.yamlRecords
    = buildRedirectMap (reverse Sample.yamlRecords).
Proof.
  apply buildRedirectMap_permutation.
  - vm_compute.
    apply NoDup_cons; split; [by intros ?%list_elem_of_singleton|].
    apply NoDup_singleton.
  - by rewrite reverse_Permutation.
Defined.

(* ===================================================================== *)
(** ** Further properties: the handlers *)
(* ===================================================================== *)

Lemma lookupHandler_union (outer inner : gmap string string) fallback w r :
  lookupHandler outer (lookupHandler inner fallback) w r
    = lookupHandler (outer ∪ inner) fallback w r.
Proof.
  unfold lookupHandler.
  destruct (outer !! requestPath r) as [target|] eqn:Ho.
  - by rewrite (lookup_union_Some_l _ _ _ _ Ho).
  - by rewrite lookup_union_r.
Qed.

(** X7.  A map handler whose fallback is another map handler answers
    every request as the single map handler over the union of the two
    maps does, the outer map winning the paths both have. *)
Theorem MapHandler_nested_union (outer inner : gmap string string)
    (fallback : http.Handler) (w : http.ResponseWriter) (r : http.Request) :
  http.HandlerFunc_ServeHTTP
    (MapHandler outer (http.HandlerFunc_ServeHTTP (MapHandler inner fallback)))
    w r
  = http.HandlerFunc_ServeHTTP (MapHandler (outer ∪ inner) fallback) w r.
Proof.
  simpl. fold (requestPath r).
  destruct (outer !! requestPath r) as [target|] eqn:Ho.
  - by rewrite (lookup_union_Some_l _ _ _ _ Ho).
  - by rewrite lookup_union_r.
Qed.

(** X8.  A source without records is transparent: the map handler over
    the empty map, and the YAML or JSON handler built from a document
    that decodes to no records, answer every request exactly as their
    fallback does. *)
Theorem empty_source_falls_back `{yaml.Decoder} `{json.Decoder}
    (fallback : http.Handler) :
  (forall w r,
     http.HandlerFunc_ServeHTTP (MapHandler ∅ fallback) w r = fallback w r) /\
  (forall yml,
     yaml.Unmarshal yml = ([], None) ->
     (YAMLHandler yml fallback).2 = None /\
     forall w r,
       http.HandlerFunc_ServeHTTP (YAMLHandler yml fallback).1 w r
         = fallback w r) /\
  (forall data,
     json.Unmarshal data = ([], None) ->
     (JSONHandler data fallback).2 = None /\
     forall w r,
       http.HandlerFunc_ServeHTTP (JSONHandler data fallback).1 w r
         = fallback w r).
Proof.
  split; [|split].
  - intros w r. simpl. by rewrite lookup_empty.
  - intros yml Hdoc. unfold YAMLHandler. rewrite Hdoc. split; [done|].
    intros w r. simpl. unfold buildRedirectMap. simpl. by rewrite lookup_empty.
  - intros data Hdoc. unfold JSONHandler. rewrite Hdoc. split; [done|].
    intros w r. simpl. unfold buildRedirectMap. simpl. by rewrite lookup_empty.
Qed.

Lemma empty_source_falls_back_witness :
  http.HandlerFunc_ServeHTTP
    (YAMLHandler (H:=Sample.yamlDecoder) "" hello).1 [] (Sample.GET "/b")
    = hello [] (Sample.GET "/b") /\
  http.HandlerFunc_ServeHTTP
    (JSONHandler (H:=Sample.jsonDecoder) "[]" hello).1 [] (Sample.GET "/j")
    = hello [] (Sample.GET "/j").
Proof.
  destruct (empty_source_falls_back
              (H:=Sample.yamlDecoder) (H0:=Sample.jsonDecoder) hello)
    as (_ & HY & HJ).
  split.
  - apply (HY ""). vm_compute. reflexivity.
  - apply (HJ "[]"). vm_compute. reflexivity.
Defined.

(** X9.  [YAMLHandler] and [JSONHandler] return a handler or an error,
    never both and never neither; the error is the decoder's. *)
Theorem handler_xor_error `{yaml.Decoder} `{json.Decoder}
    (input : string) (fallback : http.Handler) :
  ((YAMLHandler input fallback).1 = None <->
   is_Some (YAMLHandler input fallback).2) /\
  (YAMLHandler input fallback).2 = (yaml.Unmarshal input).2 /\
  ((JSONHandler input fallback).1 = None <->
   is_Some (JSONHandler input fallback).2) /\
  (JSONHandler input fallback).2 = (json.Unmarshal input).2.
Proof.
  unfold YAMLHandler, JSONHandler.
  destruct (yaml.Unmarshal input) as [ymlPaths [ey|]];
    destruct (json.Unmarshal input) as [jsonPaths [ej|]]; simpl;
    repeat split; try done; try (by eexists); by intros [? ?].
Qed.

Lemma handler_xor_error_witness :
  (YAMLHandler (H:=Sample.yamlDecoder) "{" hello).1 = None /\
  (JSONHandler (H:=Sample.jsonDecoder) "{" hello).2
    = Some (Err "unexpected end of JSON input").
Proof.
  destruct (handler_xor_error (H:=Sample.yamlDecoder) (H0:=Sample.jsonDecoder)
              "{" hello) as ([_ Hnil] & _ & _ & Herr).
  split; [apply Hnil; by eexists | by rewrite Herr].
Defined.

(* ===================================================================== *)
(** ** Further properties: the Bolt handler *)
(* ===================================================================== *)

Lemma openFailure_seeded file wd : openFailure (seeded file wd) = openFailure wd.
Proof. done. Qed.

(** X10.  How a call of [BoltHandler] ends is decided by the file alone:
    it exits through [log.Fatal] exactly when [bolt.Open] fails, panics
    on a nil bucket exactly when the file opens and already holds the
    bucket, and returns exactly when the file opens and does not hold the
    bucket; it never panics with an error value. *)
Theorem BoltHandler_outcome boltFile fallback wd :
  (forall e, (BoltHandler boltFile fallback wd).1 = Fatal e <->
             openFailure wd boltFile = Some e) /\
  ((BoltHandler boltFile fallback wd).1 = Panics NilDereference <->
   openFailure wd boltFile = None /\ is_Some (bucketOf boltFile wd)) /\
  ((exists res, (BoltHandler boltFile fallback wd).1 = Returns res) <->
   openFailure wd boltFile = None /\ bucketOf boltFile wd = None) /\
  (forall e, (BoltHandler boltFile fallback wd).1 <> Panics (PanicError e)).
Proof.
  destruct (BoltHandler_cases boltFile fallback wd)
    as [(e & Ho & ->) | [(b & Ho & Hb & ->) | (Ho & Hb & ->)]];
    rewrite Ho, ?Hb; simpl.
  all: repeat split; intros; try done; try congruence; try (by eexists);
    repeat match goal with
           | H : _ /\ _ |- _ => destruct H
           | H : exists _, _ |- _ => destruct H
           | H : is_Some _ |- _ => destruct H
           end; congruence.
Qed.

Lemma BoltHandler_outcome_witness :
  (BoltHandler "bolt.db" hello More.stocked).1 = Panics NilDereference /\
  exists res, (BoltHandler "bolt.db" hello Sample.fresh).1 = Returns res.
Proof.
  split.
  - apply (BoltHandler_outcome "bolt.db" hello More.stocked).
    split; [reflexivity|]. vm_compute. by eexists.
  - apply (BoltHandler_outcome "bolt.db" hello Sample.fresh).
    split; reflexivity.
Defined.

(** X11.  The handler [BoltHandler] returns serves the seed entry and
    nothing else: it redirects ["/urlshort-bolt"] and hands every other
    path to the fallback.  Entries a Bolt file already holds are never
    served, since the call returns only for a file without the bucket. *)
Theorem BoltHandler_serves_only_seed boltFile fallback wd h err wd' :
  BoltHandler boltFile fallback wd = (Returns (h, err), wd') ->
  bucketOf boltFile wd = None /\
  forall w r,
    http.HandlerFunc_ServeHTTP h w r =
    if bool_decide (requestPath r = "/urlshort-bolt")
    then w ++ [http.CallRedirect "https://github.com/bcpoole/urlshort" 302]
    else fallback w r.
Proof.
  intros Hret.
  destruct (BoltHandler_cases boltFile fallback wd)
    as [(e & _ & Hb) | [(b & _ & _ & Hb) | (_ & Hnone & Hb)]];
    rewrite Hb in Hret; try done.
  injection Hret as <- <- <-. split; [done|]. intros w r.
  simpl. unfold lookupHandler, seed. case_bool_decide as Hpath.
  - by rewrite Hpath, lookup_insert_eq.
  - rewrite lookup_insert_ne by done. by rewrite lookup_empty.
Qed.

Lemma BoltHandler_serves_only_seed_witness :
  http.HandlerFunc_ServeHTTP (Some (lookupHandler seed hello)) []
    (Sample.GET "/mine")
  = hello [] (Sample.GET "/mine").
Proof.
  destruct (BoltHandler_serves_only_seed "bolt.db" hello Sample.fresh
              (Some (lookupHandler seed hello)) None
              (seeded "bolt.db" Sample.fresh)) as [_ Hserve].
  - by apply BoltHandler_seeds.
  - by rewrite Hserve.
Defined.

(** X12.  Of the Bolt files, [BoltHandler] changes nothing but the
    bucket of redirects in the file it is given: every other Bolt file
    and every other bucket of this file stay as they were; and when the
    call does not return (the process exits or panics) no Bolt file has
    changed. *)
Theorem BoltHandler_frame boltFile fallback wd o wd' :
  BoltHandler boltFile fallback wd = (o, wd') ->
  (forall other, other <> boltFile ->
     dbFiles wd' !! other = dbFiles wd !! other) /\
  (forall bucket, bucket <> "URLRedirects" ->
     default ∅ (dbFiles wd' !! boltFile) !! bucket
       = default ∅ (dbFiles wd !! boltFile) !! bucket) /\
  (aborted o -> dbFiles wd' = dbFiles wd).
Proof.
  intros Hrun.
  destruct (BoltHandler_cases boltFile fallback wd)
    as [(e & _ & Hb) | [(b & _ & _ & Hb) | (_ & _ & Hb)]];
    rewrite Hb in Hrun; injection Hrun as <- <-; try done.
  unfold seeded, setDBFile. simpl. repeat split; try done.
  - intros other Hother. by rewrite lookup_insert_ne.
  - intros bucket Hbucket. rewrite lookup_insert_eq. simpl.
    by rewrite lookup_insert_ne.
Qed.

Lemma BoltHandler_frame_witness :
  dbFiles (seeded "bolt.db" Sample.fresh) !! "other.db"
    = dbFiles Sample.fresh !! "other.db".
Proof.
  destruct (BoltHandler_frame "bolt.db" hello Sample.fresh _ _
              (BoltHandler_seeds "bolt.db" hello Sample.fresh eq_refl eq_refl))
    as (Hother & _).
  by apply Hother.
Defined.

(* ===================================================================== *)
(** ** Further properties: main *)
(* ===================================================================== *)

Section MainFurther.
Context `{yaml.Decoder} `{json.Decoder}.

(** The machine [main] leaves behind. *)
Lemma main_world flags wd o wd' :
  main flags wd = (o, wd') ->
  (wd' = wd /\ (exists e, o = Fatal e)) \/
  (wd' = wd /\ o = Panics NilDereference /\
   openFailure wd (boltFile flags) = None /\
   is_Some (bucketOf (boltFile flags) wd)) \/
  (wd' = seeded (boltFile flags) wd /\
   openFailure wd (boltFile flags) = None /\
   bucketOf (boltFile flags) wd = None /\
   ((exists srv, o = Returns srv) \/ (exists e, o = Panics (PanicError e)))).
Proof.
  intros Hmain.
  destruct (openFailure wd (boltFile flags)) as [e|] eqn:Ho.
  { rewrite (main_open_fails _ _ _ Ho) in Hmain. injection Hmain as <- <-.
    left. split; [done|]. by eexists. }
  destruct (bucketOf (boltFile flags) wd) as [b|] eqn:Hb.
  { rewrite (main_bucket_exists _ _ _ Ho Hb) in Hmain.
    injection Hmain as <- <-. right. left. repeat split; done || by eexists. }
  rewrite (main_after_seeding _ _ Ho Hb) in Hmain.
  injection Hmain as <- <-. right. right. repeat split; try done.
  destruct (readResult wd (yamlFile flags)) as [yml [e|]];
    [right; by eexists|].
  destruct (yaml.Unmarshal yml) as [ymlPaths [e|]]; [right; by eexists|].
  destruct (json.Unmarshal _) as [jsonPaths [e|]];
    [right; by eexists | left; by eexists].
Qed.

(** The earlier [main], evaluated. *)
Lemma V1_main_eval flags wd :
  V1.main flags wd =
  (match readResult wd (V1.yamlFile flags) with
   | (_, Some e) => Panics (PanicError e)
   | (yml, None) =>
       match yaml.Unmarshal yml with
       | (_, Some e) => Panics (PanicError e)
       | (ymlPaths, None) =>
           match json.Unmarshal (readResult wd (V1.jsonFile flags)).1 with
           | (_, Some e) => Panics (PanicError e)
           | (jsonPaths, None) =>
               Returns {| Addr := ":8080";
                          Serving := chainV1 (buildRedirectMap jsonPaths)
                                             (buildRedirectMap ymlPaths) |}
           end
       end
   end, wd).
Proof.
  unfold V1.main, mbind, Go_bind, ioutil.ReadFile, YAMLHandler, JSONHandler.
  simpl.
  destruct (readResult wd (V1.yamlFile flags)) as [yml [e|]]; [done|]. simpl.
  destruct (yaml.Unmarshal yml) as [ymlPaths [e|]]; [done|]. simpl.
  destruct (readResult wd (V1.jsonFile flags)) as [jsonData jsonErr]. simpl.
  destruct (json.Unmarshal jsonData) as [jsonPaths [e|]]; done.
Qed.

Lemma V1_main_returns_inv flags wd srv wd' :
  V1.main flags wd = (Returns srv, wd') ->
  (readResult wd (V1.yamlFile flags)).2 = None /\
  (yaml.Unmarshal (readResult wd (V1.yamlFile flags)).1).2 = None /\
  (json.Unmarshal (readResult wd (V1.jsonFile flags)).1).2 = None /\
  wd' = wd /\
  Serving srv = chainV1 (jsonMapping (readResult wd (V1.jsonFile flags)).1)
                        (yamlMapping (readResult wd (V1.yamlFile flags)).1).
Proof.
  rewrite V1_main_eval. unfold yamlMapping, jsonMapping.
  destruct (readResult wd (V1.yamlFile flags)) as [yml [e|]]; [done|]. simpl.
  destruct (yaml.Unmarshal yml) as [ymlPaths [e|]]; [done|]. simpl.
  destruct (json.Unmarshal _) as [jsonPaths [e|]]; [done|]. simpl.
  by intros [= <- <-].
Qed.

End MainFurther.

(** X13.  [main] reaches [ListenAndServe] exactly when the Bolt file
    opens and does not yet hold the bucket, the YAML file is read
    without error, and both decoders accept what was read; the server
    then listens on [":8080"].  The error of reading the JSON file is not
    among the conditions. *)
Theorem main_starts_iff `{yaml.Decoder} `{json.Decoder} flags wd :
  ((exists srv wd', main flags wd = (Returns srv, wd')) <->
   openFailure wd (boltFile flags) = None /\
   bucketOf (boltFile flags) wd = None /\
   (readResult wd (yamlFile flags)).2 = None /\
   (yaml.Unmarshal (readResult wd (yamlFile flags)).1).2 = None /\
   (json.Unmarshal (readResult wd (jsonFile flags)).1).2 = None) /\
  (forall srv wd', main flags wd = (Returns srv, wd') -> Addr srv = ":8080").
Proof.
  split; [split|].
  - intros (srv & wd' & Hmain).
    by apply main_returns_inv in Hmain as (? & ? & ? & ? & ? & _).
  - intros (Ho & Hb & Hr & Hy & Hj).
    rewrite (main_after_seeding _ _ Ho Hb).
    destruct (readResult wd (yamlFile flags)) as [yml yerr].
    simpl in Hr, Hy. subst yerr.
    destruct (yaml.Unmarshal yml) as [ymlPaths yerr]. simpl in Hy. subst yerr.
    destruct (json.Unmarshal _) as [jsonPaths jerr]. simpl in Hj. subst jerr.
    by eexists _, _.
  - intros srv wd' Hmain.
    destruct (main_world _ _ _ _ Hmain)
      as [(_ & e & ?) | [(_ & ? & _) | (-> & Ho & Hb & _)]]; try done.
    rewrite (main_after_seeding _ _ Ho Hb) in Hmain.
    destruct (readResult wd (yamlFile flags)) as [yml [e|]]; [done|].
    destruct (yaml.Unmarshal yml) as [ymlPaths [e|]]; [done|].
    destruct (json.Unmarshal _) as [jsonPaths [e|]]; [done|].
    by injection Hmain as <-.
Qed.

Lemma main_starts_iff_witness :
  (exists srv wd', Sample.main defaultFlags Sample.fresh = (Returns srv, wd')) /\
  Addr Sample.server = ":8080".
Proof.
  destruct (main_starts_iff (H:=Sample.yamlDecoder) (H0:=Sample.jsonDecoder)
              defaultFlags Sample.fresh) as [[_ Hstart] Haddr].
  split.
  - apply Hstart. repeat split; vm_compute; reflexivity.
  - apply (Haddr _ _ sample_fresh_starts).
Defined.

(** X14.  A YAML file that cannot be read stops [main] with a panic that
    carries the read error, whatever bytes the read returned and
    whatever the decoders would make of them; the Bolt file has been
    seeded by then. *)
Theorem main_yaml_read_error `{yaml.Decoder} `{json.Decoder}
    flags wd yml e :
  openFailure wd (boltFile flags) = None ->
  bucketOf (boltFile flags) wd = None ->
  readResult wd (yamlFile flags) = (yml, Some e) ->
  main flags wd = (Panics (PanicError e), seeded (boltFile flags) wd) /\
  bucketOf (boltFile flags) (seeded (boltFile flags) wd) = Some seed.
Proof.
  intros Ho Hb Hr. rewrite (main_after_seeding _ _ Ho Hb), Hr.
  split; [done|apply bucketOf_seeded].
Qed.

Lemma main_yaml_read_error_witness :
  Sample.main defaultFlags More.noYaml
    = (Panics (PanicError
                 (Err "open urlmappings.yaml: no such file or directory")),
       seeded "bolt.db" More.noYaml).
Proof.
  apply (main_yaml_read_error (H:=Sample.yamlDecoder) (H0:=Sample.jsonDecoder)
           defaultFlags More.noYaml "");
    vm_compute; reflexivity.
Defined.

(** X15.  The server [main] starts answers as one lookup in the union of
    the four mappings, JSON over YAML over Bolt over the static map: a
    path of the union is redirected with 302 to its URL there, every
    other request is answered by the default router. *)
Theorem main_server_union `{yaml.Decoder} `{json.Decoder} flags wd srv wd' :
  main flags wd = (Returns srv, wd') ->
  forall w r,
    Serving srv w r =
    match (jsonMapping (readResult wd (jsonFile flags)).1 ∪
           (yamlMapping (readResult wd (yamlFile flags)).1 ∪
            (snapshot (boltFile flags) wd' ∪ pathsToUrls))) !! requestPath r with
    | Some target => w ++ [http.CallRedirect target 302]
    | None => http.ServeMux_ServeHTTP defaultMux w r
    end.
Proof.
  intros Hmain w r.
  apply main_returns_inv in Hmain as (_ & _ & _ & _ & _ & _ & _ & ->).
  unfold chain. rewrite !lookupHandler_union, <- !(assoc_L (∪)).
  unfold lookupHandler. by destruct (_ !! requestPath r).
Qed.

Lemma main_server_union_witness :
  Serving Sample.server [] (Sample.GET "/urlshort-bolt")
    = [http.CallRedirect "https://github.com/bcpoole/urlshort" 302].
Proof.
  rewrite (main_server_union (H:=Sample.yamlDecoder) (H0:=Sample.jsonDecoder)
             _ _ _ _ sample_fresh_starts).
  vm_compute. reflexivity.
Defined.

(** X16.  For a request whose path is its own cleaned form, the server
    [main] starts makes exactly one call on the writer, after whatever
    the writer already holds: a 302 redirect or the greeting line.  It
    answers no such request with 404 and invokes no nil handler. *)
Theorem main_server_one_answer `{yaml.Decoder} `{json.Decoder}
    flags wd srv wd' :
  main flags wd = (Returns srv, wd') ->
  forall w r,
    http.cleanPath (requestPath r) = requestPath r ->
    (exists c, Serving srv w r = w ++ [c] /\ redirectOrGreeting c) /\
    (http.status (Serving srv [] r) = Some 302 \/
     http.status (Serving srv [] r) = Some 200).
Proof.
  intros Hmain w r Hclean.
  apply main_returns_inv in Hmain as (_ & _ & _ & _ & _ & _ & _ & ->).
  unfold chain, lookupHandler, redirectOrGreeting.
  rewrite !(defaultMux_canonical _ _ Hclean).
  repeat (match goal with
          | |- context [match ?m !! requestPath r with _ => _ end] =>
              destruct (m !! requestPath r) as [target|]
          end);
    (split; [eexists; split; [reflexivity|]; (left; by eexists) || by right
            | (by left) || by right]).
Qed.

Lemma main_server_one_answer_witness :
  http.status (Serving Sample.server [] (Sample.GET "/nowhere")) = Some 302 \/
  http.status (Serving Sample.server [] (Sample.GET "/nowhere")) = Some 200.
Proof.
  apply (main_server_one_answer (H:=Sample.yamlDecoder) (H0:=Sample.jsonDecoder)
           _ _ _ _ sample_fresh_starts []).
  vm_compute. reflexivity.
Defined.

(** X17.  [main] starts at most once on a Bolt file.  On the machine
    that a run of [main] leaves behind, unless that run ended in
    [log.Fatal], every later run on the same Bolt file panics on the nil
    bucket before it reads any file: also after a run that was stopped by
    an unreadable or malformed mapping file. *)
Theorem main_restart_panics `{yaml.Decoder} `{json.Decoder}
    flags flags' wd o wd' :
  main flags wd = (o, wd') ->
  (forall e, o <> Fatal e) ->
  boltFile flags' = boltFile flags ->
  main flags' wd' = (Panics NilDereference, wd').
Proof.
  intros Hmain Hnofatal Hfile.
  destruct (main_world _ _ _ _ Hmain)
    as [(_ & e & ->) | [(-> & _ & Ho & [b Hb]) | (-> & Ho & _ & _)]].
  - by destruct (Hnofatal e).
  - apply (main_bucket_exists _ _ b); by rewrite Hfile.
  - apply (main_bucket_exists _ _ seed); rewrite Hfile;
      [done|apply bucketOf_seeded].
Qed.

Lemma main_restart_panics_witness :
  Sample.main defaultFlags (seeded "bolt.db" More.noYaml)
    = (Panics NilDereference, seeded "bolt.db" More.noYaml).
Proof.
  apply (main_restart_panics (H:=Sample.yamlDecoder) (H0:=Sample.jsonDecoder)
           defaultFlags defaultFlags More.noYaml
           (Panics (PanicError
                      (Err "open urlmappings.yaml: no such file or directory")))).
  - apply (main_after_seeding (H:=Sample.yamlDecoder) (H0:=Sample.jsonDecoder)
             defaultFlags More.noYaml); reflexivity.
  - done.
  - reflexivity.
Defined.

(** X18.  What [main] does to the Bolt files.  It never changes a Bolt
    file other than the one named by the flag.  A run that ends in
    [log.Fatal] or in the nil-bucket panic changes no Bolt file; a run
    that starts the server, and also a run that panics on a mapping
    file, leaves the named Bolt file seeded. *)
Theorem main_frame `{yaml.Decoder} `{json.Decoder} flags wd o wd' :
  main flags wd = (o, wd') ->
  (forall other, other <> boltFile flags ->
     dbFiles wd' !! other = dbFiles wd !! other) /\
  ((exists e, o = Fatal e) \/ o = Panics NilDereference ->
   dbFiles wd' = dbFiles wd) /\
  ((exists srv, o = Returns srv) \/ (exists e, o = Panics (PanicError e)) ->
   dbFiles wd' = dbFiles (seeded (boltFile flags) wd) /\
   snapshot (boltFile flags) wd' = seed).
Proof.
  intros Hmain.
  destruct (main_world _ _ _ _ Hmain)
    as [(-> & e & ->) | [(-> & -> & _ & _) | (-> & _ & _ & Ho)]].
  - split; [done|]. split; [done|]. by intros [[? ?]|[? ?]].
  - split; [done|]. split; [done|]. by intros [[? ?]|[? ?]].
  - split; [|split].
    + intros other Hother. unfold seeded, setDBFile. simpl.
      by rewrite lookup_insert_ne.
    + intros [[e ->]| ->]; by destruct Ho as [[? ?]|[? ?]].
    + intros _. split; [done|]. unfold snapshot. by rewrite bucketOf_seeded.
Qed.

Lemma main_frame_witness :
  snapshot "bolt.db" (seeded "bolt.db" Sample.brokenYaml) = seed.
Proof.
  destruct (main_frame (H:=Sample.yamlDecoder) (H0:=Sample.jsonDecoder)
              defaultFlags Sample.brokenYaml
              (Panics (PanicError
                         (Err "yaml: did not find expected node content")))
              (seeded "bolt.db" Sample.brokenYaml))
    as (_ & _ & Hseeded).
  - apply (main_after_seeding (H:=Sample.yamlDecoder) (H0:=Sample.jsonDecoder)
             defaultFlags Sample.brokenYaml); reflexivity.
  - apply Hseeded. right. by eexists.
Defined.

(* ===================================================================== *)
(** ** Further properties: the earlier main *)
(* ===================================================================== *)

(** X19.  The handler the earlier [main] serves tests the JSON mapping
    first, then the YAML mapping, then the static map, and hands the
    request to the default router when none has the path; a request
    whose path is its own cleaned form then gets the greeting. *)
Theorem V1_chain_priority `{yaml.Decoder} `{json.Decoder} flags wd srv wd' :
  V1.main flags wd = (Returns srv, wd') ->
  forall w r,
    Serving srv w r =
    match jsonMapping (readResult wd (V1.jsonFile flags)).1 !! requestPath r with
    | Some target => w ++ [http.CallRedirect target 302]
    | None =>
    match yamlMapping (readResult wd (V1.yamlFile flags)).1 !! requestPath r with
    | Some target => w ++ [http.CallRedirect target 302]
    | None =>
    match pathsToUrls !! requestPath r with
    | Some target => w ++ [http.CallRedirect target 302]
    | None => http.ServeMux_ServeHTTP defaultMux w r
    end end end /\
    (http.cleanPath (requestPath r) = requestPath r ->
     http.ServeMux_ServeHTTP defaultMux w r
       = w ++ [http.CallWrite ("Hello, world!" +:+ fmt.newline)]).
Proof.
  intros Hmain w r.
  apply V1_main_returns_inv in Hmain as (_ & _ & _ & _ & ->).
  split; [|intros Hclean; by rewrite (defaultMux_canonical _ _ Hclean)].
  unfold chainV1, lookupHandler.
  destruct (jsonMapping _ !! requestPath r); [done|].
  destruct (yamlMapping _ !! requestPath r); [done|].
  by destruct (pathsToUrls !! requestPath r).
Qed.

Lemma sample_fresh_starts_V1 :
  More.mainV1 More.flagsV1 Sample.fresh = (Returns More.serverV1, Sample.fresh).
Proof. unfold More.mainV1. rewrite V1_main_eval. reflexivity. Qed.

Lemma V1_chain_priority_witness :
  Serving More.serverV1 [] (Sample.GET "/urlshort-godoc")
    = [http.CallRedirect "https://example.com/from-yaml" 302].
Proof.
  destruct (V1_chain_priority (H:=Sample.yamlDecoder) (H0:=Sample.jsonDecoder)
              _ _ _ _ sample_fresh_starts_V1 [] (Sample.GET "/urlshort-godoc"))
    as [-> _].
  vm_compute. reflexivity.
Defined.

(** X20.  The earlier [main] leaves the machine untouched, never exits
    through [log.Fatal] and never panics on a nil pointer; it reaches
    [ListenAndServe] exactly when the YAML file is read without error
    and both decoders accept what was read. *)
Theorem V1_main_starts_iff `{yaml.Decoder} `{json.Decoder} flags wd :
  (forall o wd',
     V1.main flags wd = (o, wd') ->
     wd' = wd /\ (forall e, o <> Fatal e) /\ o <> Panics NilDereference) /\
  ((exists srv, (V1.main flags wd).1 = Returns srv) <->
   (readResult wd (V1.yamlFile flags)).2 = None /\
   (yaml.Unmarshal (readResult wd (V1.yamlFile flags)).1).2 = None /\
   (json.Unmarshal (readResult wd (V1.jsonFile flags)).1).2 = None).
Proof.
  rewrite V1_main_eval.
  destruct (readResult wd (V1.yamlFile flags)) as [yml [e|]]; simpl.
  { split; [by intros o wd' [= <- <-]|].
    split; [by intros [? ?] | by intros [? _]]. }
  destruct (yaml.Unmarshal yml) as [ymlPaths [e|]]; simpl.
  { split; [by intros o wd' [= <- <-]|].
    split; [by intros [? ?] | by intros (_ & ? & _)]. }
  destruct (json.Unmarshal _) as [jsonPaths [e|]]; simpl.
  { split; [by intros o wd' [= <- <-]|].
    split; [by intros [? ?] | by intros (_ & _ & ?)]. }
  split; [by intros o wd' [= <- <-]|].
  split; [done | intros _; by eexists].
Qed.

Lemma V1_main_starts_iff_witness :
  exists srv, (More.mainV1 More.flagsV1 Sample.fresh).1 = Returns srv.
Proof.
  apply (V1_main_starts_iff (H:=Sample.yamlDecoder) (H0:=Sample.jsonDecoder)
           More.flagsV1 Sample.fresh).
  repeat split; vm_compute; reflexivity.
Defined.

(** X21.  The earlier [main] panics with the error of the first step
    that fails, in the order: reading the YAML file, decoding it,
    decoding the JSON bytes.  The error of reading the JSON file is never
    the panic value. *)
Theorem V1_main_panic_value `{yaml.Decoder} `{json.Decoder} flags wd yml yerr :
  readResult wd (V1.yamlFile flags) = (yml, yerr) ->
  (forall e, yerr = Some e -> (V1.main flags wd).1 = Panics (PanicError e)) /\
  (forall e, yerr = None -> (yaml.Unmarshal yml).2 = Some e ->
             (V1.main flags wd).1 = Panics (PanicError e)) /\
  (forall e, yerr = None -> (yaml.Unmarshal yml).2 = None ->
             (json.Unmarshal (readResult wd (V1.jsonFile flags)).1).2 = Some e ->
             (V1.main flags wd).1 = Panics (PanicError e)).
Proof.
  intros Hr. rewrite V1_main_eval, Hr. split; [|split].
  - by intros e ->.
  - intros e -> Hy. destruct (yaml.Unmarshal yml) as [ymlPaths err].
    simpl in Hy. by subst.
  - intros e -> Hy Hj. destruct (yaml.Unmarshal yml) as [ymlPaths err].
    simpl in Hy. subst. destruct (json.Unmarshal _) as [jsonPaths err].
    simpl in Hj. by subst.
Qed.

Lemma V1_main_panic_value_witness :
  (More.mainV1 More.flagsV1 Sample.noJson).1
    = Panics (PanicError (Err "unexpected end of JSON input")).
Proof.
  destruct (V1_main_panic_value (H:=Sample.yamlDecoder) (H0:=Sample.jsonDecoder)
              More.flagsV1 Sample.noJson Sample.yamlDoc None eq_refl)
    as (_ & _ & Hjson).
  apply Hjson; vm_compute; reflexivity.
Defined.

(** X22.  Adding the Bolt handler changed the answer to one path only.
    Whenever the later [main] starts a server, the earlier [main] starts
    one on the same two files, and the two servers answer every request
    alike, except a request for ["/urlshort-bolt"] that neither the JSON
    nor the YAML mapping has: the later server redirects it to the seed
    URL. *)
Theorem main_extends_V1 `{yaml.Decoder} `{json.Decoder} flags wd srv wd' :
  main flags wd = (Returns srv, wd') ->
  exists srv1,
    V1.main (withoutBolt flags) wd = (Returns srv1, wd) /\
    forall w r,
      (requestPath r <> "/urlshort-bolt" ->
       Serving srv w r = Serving srv1 w r) /\
      (is_Some (jsonMapping (readResult wd (jsonFile flags)).1 !! requestPath r) \/
       is_Some (yamlMapping (readResult wd (yamlFile flags)).1 !! requestPath r) ->
       Serving srv w r = Serving srv1 w r) /\
      (requestPath r = "/urlshort-bolt" ->
       jsonMapping (readResult wd (jsonFile flags)).1 !! requestPath r = None ->
       yamlMapping (readResult wd (yamlFile flags)).1 !! requestPath r = None ->
       Serving srv w r
         = w ++ [http.CallRedirect "https://github.com/bcpoole/urlshort" 302]).
Proof.
  intros Hmain.
  apply main_returns_inv in Hmain as (_ & _ & Hr & Hy & Hj & _ & -> & ->).
  exists {| Addr := ":8080";
            Serving := chainV1 (jsonMapping (readResult wd (jsonFile flags)).1)
                               (yamlMapping (readResult wd (yamlFile flags)).1) |}.
  split.
  - rewrite V1_main_eval. unfold withoutBolt, jsonMapping, yamlMapping. simpl.
    destruct (readResult wd (yamlFile flags)) as [yml yerr].
    simpl in Hr, Hy. subst yerr. simpl.
    destruct (yaml.Unmarshal yml) as [ymlPaths yerr]. simpl in Hy. subst yerr.
    destruct (json.Unmarshal _) as [jsonPaths jerr]. simpl in Hj. by subst jerr.
  - intros w r. simpl. unfold chain, chainV1, lookupHandler.
    split; [|split].
    + intros Hpath.
      destruct (jsonMapping _ !! requestPath r); [done|].
      destruct (yamlMapping _ !! requestPath r); [done|].
      unfold seed. rewrite lookup_insert_ne by done. by rewrite lookup_empty.
    + intros [[u Hu]|[u Hu]].
      * by rewrite Hu.
      * destruct (jsonMapping _ !! requestPath r); [done|]. by rewrite Hu.
    + intros Hpath Hjn Hyn. rewrite Hjn, Hyn, Hpath. unfold seed.
      by rewrite lookup_insert_eq.
Qed.

Lemma main_extends_V1_witness :
  exists srv1,
    More.mainV1 More.flagsV1 Sample.fresh = (Returns srv1, Sample.fresh) /\
    Serving Sample.server [] (Sample.GET "/b") = Serving srv1 [] (Sample.GET "/b").
Proof.
  destruct (main_extends_V1 (H:=Sample.yamlDecoder) (H0:=Sample.jsonDecoder)
              _ _ _ _ sample_fresh_starts) as (srv1 & Hrun & Hsame).
  exists srv1. split; [exact Hrun|].
  destruct (Hsame [] (Sample.GET "/b")) as [Hother _].
  apply Hother. vm_compute. discriminate.
Defined.
